(** * Weather dashboard: the scraping core, embedded and verified

    The definitions follow [src/weather_scraper.py] and the top-level
    script of [src/app.py] (duplicated in [src/weather_app.py]).
    Python lists are [list], a Python [str] is the [string] of its UTF-8
    bytes, a call that may raise returns a [result]. *)

From Stdlib Require Import String Ascii ZArith Lia Bool Arith PeanoNat.
From Stdlib Require Import DecimalString List.
Import ListNotations.
Open Scope string_scope.
Open Scope list_scope.
Open Scope nat_scope.

(** ** Python values, exceptions and slices *)

Module Py.

(** The exception classes the embedded code can raise.  Each carries the
    text that [str(e)] returns. *)
Inductive exn : Type :=
| Exception (msg : string)
| AttributeError (msg : string)
| ValueError (msg : string)
| IndexError (msg : string)
| KeyError (msg : string)
| RequestException (msg : string).

Definition class_name (e : exn) : string :=
  match e with
  | Exception _ => "Exception"
  | AttributeError _ => "AttributeError"
  | ValueError _ => "ValueError"
  | IndexError _ => "IndexError"
  | KeyError _ => "KeyError"
  | RequestException _ => "RequestException"
  end.

(** [str(e)] *)
Definition str_exn (e : exn) : string :=
  match e with
  | Exception m | AttributeError m | ValueError m
  | IndexError m | KeyError m | RequestException m => m
  end.

Inductive result (A : Type) : Type :=
| Ok (a : A)
| Raise (e : exn).
Arguments Ok {A} a.
Arguments Raise {A} e.

Definition bind {A B} (r : result A) (k : A -> result B) : result B :=
  match r with
  | Ok a => k a
  | Raise e => Raise e
  end.

Definition raises {A} (r : result A) : bool :=
  match r with Ok _ => false | Raise _ => true end.

(** The call raised an exception whose class is named [cls]. *)
Definition raises_class {A} (cls : string) (r : result A) : Prop :=
  exists e, r = Raise e /\ class_name e = cls.

(** [try: body  except Exception as e: handler(e)]: every class above
    derives from [Exception]. *)
Definition try_except {A} (body : result A) (handler : exn -> result A)
  : result A :=
  match body with
  | Ok a => Ok a
  | Raise e => handler e
  end.

(** [l[i:]] and [l[i:j]] for non-negative bounds; neither raises. *)
Definition slice_from {A} (l : list A) (i : nat) : list A := skipn i l.
Definition slice {A} (l : list A) (i j : nat) : list A :=
  firstn (j - i) (skipn i l).

(** [l[-1]] *)
Definition index_last (l : list string) : result string :=
  match l with
  | [] => Raise (IndexError "list index out of range")
  | _ :: _ => Ok (last l "")
  end.

End Py.

Import Py.

Notation "x <- c ;; k" := (Py.bind c (fun x => k))
  (at level 61, c at next level, right associativity).
Notation "' pat <- c ;; k" := (Py.bind c (fun x => match x with pat => k end))
  (at level 61, pat pattern, c at next level, right associativity).

(** ** Pair reassembly ([app.py] 263-275, [weather_app.py] 596-608) *)

Module Reassembly.

(** The [if date == all_dates[-1]: ... else: ...] that picks the block of
    one date. *)
Definition hours_of (all_dates all_hours : list string)
    (hours_per_block idx : nat) (date : string) : result (list string) :=
  last_date <- index_last all_dates ;;
  if String.eqb date last_date
  then Ok (slice_from all_hours idx)
  else Ok (slice all_hours idx (idx + hours_per_block)).

(** [for date in all_dates: ...] with the loop state [(idx, combined)]. *)
Fixpoint combine_loop (all_dates all_hours : list string)
    (hours_per_block : nat) (todo : list string)
    (st : nat * list (string * string))
  : result (nat * list (string * string)) :=
  match todo with
  | [] => Ok st
  | date :: rest =>
      let '(idx, combined) := st in
      hours <- hours_of all_dates all_hours hours_per_block idx date ;;
      combine_loop all_dates all_hours hours_per_block rest
        (idx + length hours,
         combined ++ map (fun hour => (date, hour)) hours)
  end.

Definition combine (all_dates all_hours : list string)
  : result (list (string * string)) :=
  if (0 <? length all_dates) && (0 <? length all_hours) then
    let hours_per_block := length all_hours / length all_dates in
    '(_, combined) <-
       combine_loop all_dates all_hours hours_per_block all_dates (0, []) ;;
    Ok combined
  else Ok [].

(** One iteration of the loop, as observed: the date, the cursor the
    iteration starts from and the block it takes. *)
Record iteration : Type := Iteration {
  it_date : string;
  it_idx : nat;
  it_hours : list string
}.

(** The same loop, recording its iterations instead of the pairs. *)
Fixpoint trace_loop (all_dates all_hours : list string)
    (hours_per_block : nat) (todo : list string) (idx : nat)
  : result (list iteration) :=
  match todo with
  | [] => Ok []
  | date :: rest =>
      hours <- hours_of all_dates all_hours hours_per_block idx date ;;
      tl <- trace_loop all_dates all_hours hours_per_block rest
              (idx + length hours) ;;
      Ok (Iteration date idx hours :: tl)
  end.

Definition trace (all_dates all_hours : list string)
  : result (list iteration) :=
  if (0 <? length all_dates) && (0 <? length all_hours) then
    trace_loop all_dates all_hours
      (length all_hours / length all_dates) all_dates 0
  else Ok [].

(** The pairs an iteration appends, and those of a whole run. *)
Definition pairs_of_iteration (it : iteration) : list (string * string) :=
  map (fun hour => (it_date it, hour)) (it_hours it).

Definition pairs_of (tr : list iteration) : list (string * string) :=
  flat_map pairs_of_iteration tr.

(** A run that starts at cursor [idx]: every iteration starts where the
    one before stopped, takes the slice of [all_hours] at its cursor, and
    leaves the cursor advanced by the length of what it took. *)
Fixpoint chained (all_hours : list string) (idx : nat)
    (tr : list iteration) : Prop :=
  match tr with
  | [] => True
  | it :: tl =>
      it_idx it = idx /\
      it_hours it = slice all_hours idx (idx + length (it_hours it)) /\
      chained all_hours (idx + length (it_hours it)) tl
  end.

(** The pairing rule read by position: every date but the one at the
    last index takes exactly [block = H // D] hours from the cursor, the
    date at the last index takes the rest. *)
Definition by_position (all_dates all_hours : list string) : Prop :=
  let D := length all_dates in
  let block := length all_hours / D in
  exists tr,
    trace all_dates all_hours = Ok tr /\
    combine all_dates all_hours = Ok (pairs_of tr) /\
    length tr = D /\
    (forall i, i < D - 1 ->
       nth_error tr i =
       Some (Iteration (nth i all_dates "") (i * block)
               (slice all_hours (i * block) (i * block + block))) /\
       length (slice all_hours (i * block) (i * block + block)) = block) /\
    nth_error tr (D - 1) =
    Some (Iteration (last all_dates "") ((D - 1) * block)
            (slice_from all_hours ((D - 1) * block))).

(** Cursor after a run. *)
Definition final_idx (start : nat) (tr : list iteration) : nat :=
  fold_left (fun idx it => idx + length (it_hours it)) tr start.

End Reassembly.

(** ** Python text built-ins used by the formatter and the scrapers *)

Module Text.

Definition chars (s : string) : list ascii := list_ascii_of_string s.
Definition text_of (l : list ascii) : string := string_of_list_ascii l.

(** A Python [str] is held as its UTF-8 bytes. *)
Definition byte (c : ascii) : N := N_of_ascii c.

Definition continuation (c : ascii) : bool :=
  ((128 <=? byte c) && (byte c <=? 191))%N.

(** The code point at the head of a byte list, and the bytes after it;
    [None] where the bytes are not well-formed UTF-8. *)
Definition decode1 (l : list ascii) : option (N * list ascii) :=
  match l with
  | [] => None
  | b0 :: r =>
      if (byte b0 <? 128)%N then Some (byte b0, r)
      else
        match r with
        | b1 :: r1 =>
            if continuation b1 then
              if ((194 <=? byte b0) && (byte b0 <=? 223))%N then
                Some (((byte b0 - 192) * 64 + (byte b1 - 128))%N, r1)
              else
                match r1 with
                | b2 :: r2 =>
                    if continuation b2 then
                      if ((224 <=? byte b0) && (byte b0 <=? 239))%N then
                        let cp := ((byte b0 - 224) * 4096
                                   + (byte b1 - 128) * 64
                                   + (byte b2 - 128))%N in
                        if ((2048 <=? cp)
                            && negb ((55296 <=? cp) && (cp <=? 57343)))%N
                        then Some (cp, r2) else None
                      else
                        match r2 with
                        | b3 :: r3 =>
                            if continuation b3
                               && ((240 <=? byte b0) && (byte b0 <=? 244))%N
                            then
                              let cp := ((byte b0 - 240) * 262144
                                         + (byte b1 - 128) * 4096
                                         + (byte b2 - 128) * 64
                                         + (byte b3 - 128))%N in
                              if ((65536 <=? cp) && (cp <=? 1114111))%N
                              then Some (cp, r3) else None
                            else None
                        | [] => None
                        end
                    else None
                | [] => None
                end
            else None
        | [] => None
        end
  end.

(** The code point at the end of a string, read from its reversed
    bytes. *)
Definition decode_last (reversed : list ascii) : option (N * list ascii) :=
  let try k :=
    match decode1 (rev (firstn k reversed)) with
    | Some (cp, []) => Some (cp, skipn k reversed)
    | _ => None
    end in
  match try 1 with
  | Some x => Some x
  | None =>
      match try 2 with
      | Some x => Some x
      | None =>
          match try 3 with
          | Some x => Some x
          | None => try 4
          end
      end
  end.

(** The code points for which [str.isspace()] holds; [str.strip()]
    removes exactly these. *)
Definition is_space (cp : N) : bool :=
  (((9 <=? cp) && (cp <=? 13)) || ((28 <=? cp) && (cp <=? 32))
   || (cp =? 133) || (cp =? 160) || (cp =? 5760)
   || ((8192 <=? cp) && (cp <=? 8202))
   || (cp =? 8232) || (cp =? 8233) || (cp =? 8239) || (cp =? 8287)
   || (cp =? 12288))%N.

(** [s.lstrip()] on bytes; each step removes one code point, so the
    length of the list is fuel enough. *)
Fixpoint lstrip_fuel (fuel : nat) (l : list ascii) : list ascii :=
  match fuel with
  | O => l
  | S fuel' =>
      match decode1 l with
      | Some (cp, rest) => if is_space cp then lstrip_fuel fuel' rest else l
      | None => l
      end
  end.

Definition lstrip (l : list ascii) : list ascii :=
  lstrip_fuel (length l) l.

(** [s.rstrip()], on the reversed bytes. *)
Fixpoint rstrip_fuel (fuel : nat) (reversed : list ascii) : list ascii :=
  match fuel with
  | O => reversed
  | S fuel' =>
      match decode_last reversed with
      | Some (cp, rest) =>
          if is_space cp then rstrip_fuel fuel' rest else reversed
      | None => reversed
      end
  end.

Definition rstrip_reversed (reversed : list ascii) : list ascii :=
  rstrip_fuel (length reversed) reversed.

(** [s.strip()] *)
Definition strip (s : string) : string :=
  text_of (rev (rstrip_reversed (rev (lstrip (chars s))))).

Definition digit_of (c : ascii) : option nat :=
  let n := nat_of_ascii c in
  if (48 <=? n) && (n <=? 57) then Some (n - 48) else None.

(** The code points of the digit zero of every script (Unicode 14.0, the
    table of Python 3.11); the nine that follow each are its digits 1 to
    9. *)
Definition decimal_zeros : list N :=
  [48; 1632; 1776; 1984; 2406; 2534; 2662; 2790; 2918; 3046; 3174; 3302;
   3430; 3558; 3664; 3792; 3872; 4160; 4240; 6112; 6160; 6470; 6608;
   6784; 6800; 6992; 7088; 7232; 7248; 42528; 43216; 43264; 43472; 43504;
   43600; 44016; 65296; 66720; 68912; 69734; 69872; 69942; 70096; 70384;
   70736; 70864; 71248; 71360; 71472; 71904; 72016; 72784; 73040; 73120;
   92768; 92864; 93008; 120782; 120792; 120802; 120812; 120822; 123200;
   123632; 125264; 130032]%N.

(** The decimal value of a code point, if it is a decimal digit. *)
Definition decimal_of (cp : N) : option nat :=
  match find (fun z => ((z <=? cp) && (cp <? z + 10))%N) decimal_zeros with
  | Some z => Some (N.to_nat (cp - z))
  | None => None
  end.

(** What [int()] makes of a string before it parses it: ASCII is kept,
    any other white space becomes a space, any other decimal digit its
    ASCII digit; [None] when another character occurs. *)
Fixpoint to_ascii_fuel (fuel : nat) (l : list ascii)
  : option (list ascii) :=
  match l with
  | [] => Some []
  | _ :: _ =>
      match fuel with
      | O => None
      | S fuel' =>
          match decode1 l with
          | None => None
          | Some (cp, rest) =>
              let head :=
                if (cp <? 127)%N then Some (ascii_of_N cp)
                else if is_space cp then Some " "%char
                else option_map (fun d => ascii_of_nat (48 + d))
                       (decimal_of cp) in
              match head, to_ascii_fuel fuel' rest with
              | Some c, Some t => Some (c :: t)
              | _, _ => None
              end
          end
      end
  end.

Definition to_ascii (l : list ascii) : option (list ascii) :=
  to_ascii_fuel (length l) l.

(** The white space the parser of [int()] skips at both ends. *)
Definition is_c_space (c : ascii) : bool :=
  let n := nat_of_ascii c in
  ((9 <=? n) && (n <=? 13)) || (n =? 32).

Fixpoint skip_c_space (l : list ascii) : list ascii :=
  match l with
  | c :: r => if is_c_space c then skip_c_space r else l
  | [] => []
  end.

(** Digits of an [int] literal: single underscores are allowed between
    digits. *)
Fixpoint int_digits (acc : Z) (after_digit : bool) (l : list ascii)
  : option Z :=
  match l with
  | [] => if after_digit then Some acc else None
  | c :: r =>
      match digit_of c with
      | Some d => int_digits (10 * acc + Z.of_nat d) true r
      | None =>
          if Ascii.eqb c "_" && after_digit then int_digits acc false r
          else None
      end
  end.

Definition int_literal (l : list ascii) : option Z :=
  match l with
  | "-"%char :: r => option_map Z.opp (int_digits 0 false r)
  | "+"%char :: r => int_digits 0 false r
  | _ => int_digits 0 false l
  end.

(** [int(s)] on a string, base 10.  The text of the error shows [s]
    between quotes, as [repr] does for plain text. *)
Definition int (s : string) : result Z :=
  let bad :=
    Raise (ValueError
      ("invalid literal for int() with base 10: '" ++ s ++ "'")%string) in
  match to_ascii (chars s) with
  | Some a =>
      match int_literal (rev (skip_c_space (rev (skip_c_space a)))) with
      | Some z => Ok z
      | None => bad
      end
  | None => bad
  end.

Definition decimal (n : N) : string :=
  NilZero.string_of_uint (N.to_uint n).

(** [str(z)] on an [int]. *)
Definition str_int (z : Z) : string :=
  match z with
  | Zneg p => ("-" ++ decimal (Npos p))%string
  | _ => decimal (Z.to_N z)
  end.

(** [f"{z:02d}"]: at least two characters, zero filled after the sign. *)
Definition format_02d (z : Z) : string :=
  let s := str_int z in
  if String.length s <? 2 then ("0" ++ s)%string else s.

(** [needle in hay] on strings. *)
Fixpoint contains (needle hay : string) : bool :=
  String.prefix needle hay ||
  match hay with
  | EmptyString => false
  | String _ r => contains needle r
  end.

(** [s.replace(a, b)] for one-character [a] and [b]. *)
Definition replace_char (a b : ascii) (s : string) : string :=
  text_of (map (fun c => if Ascii.eqb c a then b else c) (chars s)).

End Text.

(** ** Display formatting ([app.py] 277-286, [weather_app.py] 610-619) *)

Module Format.

(** What the name [datetime] can be bound to: the module, after
    [import datetime], or the class of the same name inside it. *)
Inductive datetime_binding : Type :=
| datetime_module
| datetime_class.

(** Line 6 of both scripts is [import datetime]; nothing rebinds the name
    before the formatting loop, and line 220 uses [datetime.date] and
    [datetime.timedelta], which only the module has. *)
Definition datetime : datetime_binding := datetime_module.

(** The fields of a parsed date that [strftime("%B %-d")] reads. *)
Record date_value : Type := DateValue { month : nat; day : nat }.

Definition two_digits (a b : ascii) : option nat :=
  match Text.digit_of a, Text.digit_of b with
  | Some x, Some y => Some (10 * x + y)
  | _, _ => None
  end.

(** [%m] is the regular expression [1[0-2]|0[1-9]|[1-9]]. *)
Definition match_month (l : list ascii) : option (nat * list ascii) :=
  match l with
  | "1"%char :: b :: r =>
      match Text.digit_of b with
      | Some y => if y <=? 2 then Some (10 + y, r) else Some (1, b :: r)
      | None => Some (1, b :: r)
      end
  | "0"%char :: b :: r =>
      match Text.digit_of b with
      | Some (S y) => Some (S y, r)
      | _ => None
      end
  | a :: r =>
      match Text.digit_of a with
      | Some (S x) => Some (S x, r)
      | _ => None
      end
  | [] => None
  end.

(** [%d] is [3[0-1]|[1-2]\d|0[1-9]|[1-9]| [1-9]], first alternative that
    matches; [\d] takes any decimal digit. *)
Definition match_day (l : list ascii) : option (nat * list ascii) :=
  let one :=
    match l with
    | a :: r =>
        match Text.digit_of a with
        | Some (S x) => Some (S x, r)
        | _ =>
            if Ascii.eqb a " " then
              match r with
              | b :: r' =>
                  match Text.digit_of b with
                  | Some (S y) => Some (S y, r')
                  | _ => None
                  end
              | [] => None
              end
            else None
        end
    | [] => None
    end in
  let any_digit (tens : nat) (r : list ascii) :=
    match Text.decode1 r with
    | Some (cp, r') =>
        match Text.decimal_of cp with
        | Some y => Some (tens + y, r')
        | None => one
        end
    | None => one
    end in
  match l with
  | a :: r =>
      match Text.digit_of a with
      | Some 3 =>
          match r with
          | b :: r' =>
              match Text.digit_of b with
              | Some y => if y <=? 1 then Some (30 + y, r') else one
              | None => one
              end
          | [] => one
          end
      | Some 1 => any_digit 10 r
      | Some 2 => any_digit 20 r
      | Some 0 =>
          match r with
          | b :: r' =>
              match Text.digit_of b with
              | Some (S y) => Some (S y, r')
              | _ => one
              end
          | [] => one
          end
      | _ => one
      end
  | [] => one
  end.

(** Days of each month of 1900, the year [strptime] assumes. *)
Definition days_in_month (m : nat) : nat :=
  match m with
  | 2 => 28
  | 4 | 6 | 9 | 11 => 30
  | _ => 31
  end.

(** [datetime.datetime.strptime(s, "%m/%d")] *)
Definition strptime_md (s : string) : result date_value :=
  let bad := Raise (ValueError
    ("time data '" ++ s ++ "' does not match format '%m/%d'")%string) in
  match match_month (Text.chars s) with
  | Some (m, "/"%char :: r) =>
      match match_day r with
      | Some (d, []) =>
          if d <=? days_in_month m then Ok (DateValue m d)
          else Raise (ValueError "day is out of range for month")
      | Some (_, rest) =>
          Raise (ValueError
            ("unconverted data remains: " ++ Text.text_of rest)%string)
      | None => bad
      end
  | _ => bad
  end.

(** The attribute lookup [datetime.strptime]. *)
Definition getattr_strptime (b : datetime_binding)
  : result (string -> result date_value) :=
  match b with
  | datetime_module =>
      Raise (AttributeError "module 'datetime' has no attribute 'strptime'")
  | datetime_class => Ok strptime_md
  end.

Definition month_name (m : nat) : string :=
  match m with
  | 1 => "January" | 2 => "February" | 3 => "March" | 4 => "April"
  | 5 => "May" | 6 => "June" | 7 => "July" | 8 => "August"
  | 9 => "September" | 10 => "October" | 11 => "November"
  | _ => "December"
  end.

(** [dt.strftime("%B %-d")] *)
Definition strftime_B_d (dt : date_value) : string :=
  (month_name (month dt) ++ " " ++ Text.str_int (Z.of_nat (day dt)))%string.

(** The [try ... except Exception: date_str = date] of the loop body,
    for a given binding of the name [datetime]. *)
Definition date_str_of (b : datetime_binding) (date : string)
  : result string :=
  try_except
    (strptime <- getattr_strptime b ;;
     dt <- strptime date ;;
     Ok (strftime_B_d dt))
    (fun _ => Ok date).

(** One iteration of [for date, hour in combined]. *)
Definition format_pair_with (b : datetime_binding) (p : string * string)
  : result string :=
  let '(date, hour) := p in
  date_str <- date_str_of b date ;;
  n <- Text.int hour ;;
  let hour_str := (Text.format_02d n ++ ":00")%string in
  Ok (date_str ++ ", " ++ hour_str)%string.

Fixpoint format_loop_with (b : datetime_binding)
    (combined : list (string * string)) (formatted : list string)
  : result (list string) :=
  match combined with
  | [] => Ok formatted
  | p :: rest =>
      s <- format_pair_with b p ;;
      format_loop_with b rest (formatted ++ [s])
  end.

(** The loop as the scripts run it. *)
Definition format_pair : string * string -> result string :=
  format_pair_with datetime.

Definition format_all (combined : list (string * string))
  : result (list string) :=
  format_loop_with datetime combined [].

(** Reassembly followed by formatting, as the script chains them. *)
Definition display_dates (all_dates all_hours : list string)
  : result (list string) :=
  combined <- Reassembly.combine all_dates all_hours ;;
  format_all combined.

End Format.



(** ** The parsed page, as BeautifulSoup exposes it *)

Module Soup.

#[local] Set Warnings "-register-all".

(** A node of the parse tree: a text string, or a tag with its name, its
    [id] attribute, its list of classes and its contents. *)
Inductive node : Type :=
| NavigableString (s : string)
| Tag (name : string) (id : option string) (classes : list string)
      (contents : list node).

(** A parsed document is the list of its top-level nodes. *)
Definition soup : Type := list node.

(** Every node below [n], in document order. *)
Fixpoint descendants (n : node) : list node :=
  match n with
  | NavigableString _ => []
  | Tag _ _ _ contents => flat_map (fun c => c :: descendants c) contents
  end.

Definition all_nodes (doc : soup) : list node :=
  flat_map (fun c => c :: descendants c) doc.

Definition has_name (name : string) (n : node) : bool :=
  match n with
  | Tag name' _ _ _ => String.eqb name' name
  | NavigableString _ => false
  end.

Definition has_class (cls : string) (n : node) : bool :=
  match n with
  | Tag _ _ classes _ => existsb (String.eqb cls) classes
  | NavigableString _ => false
  end.

(** [soup.find_all(name)] and [tag.find_all(name)] *)
Definition find_all (name : string) (doc : soup) : list node :=
  filter (has_name name) (all_nodes doc).

Definition tag_find_all (name : string) (n : node) : list node :=
  filter (has_name name) (descendants n).

(** [soup.find(class_=cls)]: the first match, or [None]. *)
Definition find_class (cls : string) (doc : soup) : option node :=
  find (has_class cls) (all_nodes doc).

(** [soup.select("#ident name")]: the [name] tags that lie below a tag
    whose [id] is [ident], each once, in document order. *)
Fixpoint select_below (ident name : string) (inside : bool) (n : node)
  : list node :=
  match n with
  | NavigableString _ => []
  | Tag name' id _ contents =>
      let here := if inside && String.eqb name' name then [n] else [] in
      let inside' :=
        inside ||
        match id with Some i => String.eqb i ident | None => false end in
      here ++ flat_map (select_below ident name inside') contents
  end.

Definition select (ident name : string) (doc : soup) : list node :=
  flat_map (select_below ident name false) doc.

(** The text strings below a node, in document order. *)
Fixpoint strings (n : node) : list string :=
  match n with
  | NavigableString s => [s]
  | Tag _ _ _ contents => flat_map strings contents
  end.

(** [tag.text] *)
Definition text (n : node) : string :=
  String.concat "" (strings n).

(** [tag.get_text(strip=True)]: every string stripped, the empty ones
    dropped. *)
Definition get_text_strip (n : node) : string :=
  String.concat ""
    (filter (fun s => negb (String.eqb s "")) (map Text.strip (strings n))).

End Soup.

(** ** The HTTP client *)

Module Http.

(** A geocoding candidate: a JSON object with text values. *)
Definition candidate : Type := list (string * string).

(** A response of [requests.get]: its status, its body as
    [BeautifulSoup(resp.content, "html.parser")] reads it and as
    [resp.json()] reads it. *)
Record response : Type := Response {
  status_code : Z;
  content : Soup.soup;
  json : result (list candidate)
}.

(** [requests.get]: from the URL to a response, or to the exception of a
    failed transport. *)
Definition client : Type := string -> result response.

(** [obj[key]] on a JSON object. *)
Fixpoint getitem (obj : candidate) (key : string) : result string :=
  match obj with
  | [] => Raise (KeyError ("'" ++ key ++ "'")%string)
  | (k, v) :: rest => if String.eqb k key then Ok v else getitem rest key
  end.

(** [l[i]] for a non-negative [i]. *)
Definition index {A} (l : list A) (i : nat) : result A :=
  match nth_error l i with
  | Some a => Ok a
  | None => Raise (IndexError "list index out of range")
  end.

End Http.

(** ** [weather_scraper.py] *)

Module Scraper.

Import Http.

Definition search_url (location : string) : string :=
  ("https://nominatim.openstreetmap.org/search?format=json&q="
     ++ Text.replace_char " " "+" location)%string.

(** [get_coordinates(location)].  The one-second [time.sleep] before the
    return has no effect on the result and is left out. *)
Definition get_coordinates (requests_get : client) (location : string)
  : result (string * string) :=
  try_except
    (let url := search_url location in
     response <- requests_get url ;;
     if negb (status_code response =? 200)%Z then
       Raise (Exception
         ("Geocoding API request failed with status code: "
            ++ Text.str_int (status_code response))%string)
     else
       data <- json response ;;
       match data with
       | [] =>
           Raise (Exception
             ("No coordinates found for location: " ++ location)%string)
       | _ :: _ =>
           first_result <- index data 0 ;;
           lat <- getitem first_result "lat" ;;
           lon <- getitem first_result "lon" ;;
           Ok (lat, lon)
       end)
    (fun e =>
       Raise (Exception
         ("Error getting coordinates: " ++ str_exn e)%string)).

(** The dictionary [get_weather_data_html_weather_gov] returns. *)
Record current_weather : Type := CurrentWeather {
  temperature : string;
  humidity : string;
  wind_speed : string;
  conditions : string
}.

(** The body of [for row in soup.select(...)], on the state
    [(humidity, wind)]. *)
Definition detail_row (st : string * string) (row : Soup.node)
  : string * string :=
  let '(humidity, wind) := st in
  let cells := Soup.tag_find_all "td" row in
  match cells with
  | [c0; c1] =>
      let label := Soup.get_text_strip c0 in
      let value := Soup.get_text_strip c1 in
      let humidity := if Text.contains "Humidity" label then value
                      else humidity in
      let wind := if Text.contains "Wind" label then value else wind in
      (humidity, wind)
  | _ => (humidity, wind)
  end.

(** [get_weather_data_html_weather_gov(url)] *)
Definition get_weather_data_html_weather_gov (requests_get : client)
    (url : string) : result current_weather :=
  resp <- requests_get url ;;
  let soup := content resp in
  let temp := Soup.find_class "myforecast-current-lrg" soup in
  let temperature :=
    match temp with Some t => Text.strip (Soup.text t) | None => "N/A" end in
  let cond := Soup.find_class "myforecast-current" soup in
  let conditions :=
    match cond with Some c => Text.strip (Soup.text c) | None => "N/A" end in
  let '(humidity, wind) :=
    fold_left detail_row
      (Soup.select "current_conditions_detail" "tr" soup) ("N/A", "N/A") in
  Ok (CurrentWeather temperature humidity wind conditions).

(** One row of the exported table. *)
Record csv_row : Type := CsvRow {
  row_date : string;
  row_hour : string;
  row_temperature : string;
  row_wind : string;
  row_humidity : string
}.

(** [l[i] if i < len(l) else ''] *)
Definition item_or_empty (l : list string) (i : nat) : result string :=
  if i <? length l then index l i else Ok "".

Fixpoint rows_loop (all_dates all_hours temp_values wind_values
    humidity_values : list string) (range : list nat) (data : list csv_row)
  : result (list csv_row) :=
  match range with
  | [] => Ok data
  | i :: rest =>
      d <- item_or_empty all_dates i ;;
      h <- item_or_empty all_hours i ;;
      t <- item_or_empty temp_values i ;;
      w <- item_or_empty wind_values i ;;
      u <- item_or_empty humidity_values i ;;
      rows_loop all_dates all_hours temp_values wind_values humidity_values
        rest (data ++ [CsvRow d h t w u])
  end.

(** [save_forecast_to_csv]: the rows it hands to [to_csv]. *)
Definition save_forecast_to_csv (all_dates all_hours temp_values wind_values
    humidity_values : list string) : result (list csv_row) :=
  rows_loop all_dates all_hours temp_values wind_values humidity_values
    (seq 0 (length all_dates)) [].

End Scraper.

(** ** The digital-forecast steps of the scripts around the loops *)

Module App.

(** [table = soup.find_all("table")[4]] ([app.py] 240,
    [weather_app.py] 573). *)
Definition table_index : nat := 4.

Definition select_table (soup : Soup.soup) : result Soup.node :=
  Http.index (Soup.find_all "table" soup) table_index.

(** The columns of [pd.DataFrame({...})] built from four lists: pandas
    refuses lists of different lengths. *)
Record frame : Type := Frame {
  col_date : list string;
  col_temperature : list string;
  col_wind : list string;
  col_humidity : list string
}.

Definition DataFrame (formatted temp_values wind_values humidity_values
    : list string) : result frame :=
  let n := length formatted in
  if (length temp_values =? n) && (length wind_values =? n)
     && (length humidity_values =? n)
  then Ok (Frame formatted temp_values wind_values humidity_values)
  else Raise (ValueError "All arrays must be of the same length").

(** [d.split(',')[1].strip() if ',' in d else ''] *)
Fixpoint until_comma (l : list ascii) : list ascii :=
  match l with
  | [] => []
  | c :: r => if Ascii.eqb c "," then [] else c :: until_comma r
  end.

Fixpoint after_comma (l : list ascii) : option (list ascii) :=
  match l with
  | [] => None
  | c :: r => if Ascii.eqb c "," then Some r else after_comma r
  end.

Definition hour_column (d : string) : string :=
  match after_comma (Text.chars d) with
  | Some r => Text.strip (Text.text_of (until_comma r))
  | None => ""
  end.

(** [app.py] 289-302: the frame, then the export of its columns. *)
Definition build_records (formatted temp_values wind_values humidity_values
    : list string) : result (list Scraper.csv_row) :=
  df <- DataFrame formatted temp_values wind_values humidity_values ;;
  Scraper.save_forecast_to_csv
    (col_date df) (map hour_column (col_date df))
    (col_temperature df) (col_wind df) (col_humidity df).

End App.

(** ** The row walk of the scripts ([app.py] 244-261,
    [weather_app.py] 577-594) *)

Module Walk.

(** The five lists the walk fills. *)
Record accumulators : Type := Accumulators {
  all_dates : list string;
  all_hours : list string;
  temp_values : list string;
  wind_values : list string;
  humidity_values : list string
}.

Definition empty : accumulators := Accumulators [] [] [] [] [].

(** [row.find_all(["td", "th"])] *)
Definition cells_of (row : Soup.node) : list Soup.node :=
  filter (fun n => Soup.has_name "td" n || Soup.has_name "th" n)
    (Soup.descendants row).

(** [cells and test(cells[0].get_text(strip=True))] *)
Definition label_is (test : string -> bool) (cells : list Soup.node)
  : bool :=
  match cells with
  | [] => false
  | c :: _ => test (Soup.get_text_strip c)
  end.

(** [[c.get_text(strip=True) for c in cells[1:] if c.get_text(strip=True)]] *)
Definition values_of (cells : list Soup.node) : list string :=
  filter (fun s => negb (String.eqb s ""))
    (map Soup.get_text_strip (tl cells)).

Definition is_date (cells : list Soup.node) : bool :=
  label_is (fun l => String.eqb l "Date") cells.
Definition is_hour (cells : list Soup.node) : bool :=
  label_is (String.prefix "Hour (") cells.
Definition is_temperature (cells : list Soup.node) : bool :=
  label_is (fun l => String.eqb l "Temperature (°F)") cells.
Definition is_wind (cells : list Soup.node) : bool :=
  label_is (fun l => String.eqb l "Surface Wind (mph)") cells.
Definition is_humidity (cells : list Soup.node) : bool :=
  label_is (fun l => String.eqb l "Relative Humidity (%)") cells.

(** The body of [for row in rows]: five independent [if]s. *)
Definition row_step (acc : accumulators) (row : Soup.node) : accumulators :=
  let cells := cells_of row in
  let all_dates :=
    if is_date cells then all_dates acc ++ values_of cells
    else all_dates acc in
  let all_hours :=
    if is_hour cells then all_hours acc ++ values_of cells
    else all_hours acc in
  let temp_values :=
    if is_temperature cells then temp_values acc ++ values_of cells
    else temp_values acc in
  let wind_values :=
    if is_wind cells then wind_values acc ++ values_of cells
    else wind_values acc in
  let humidity_values :=
    if is_humidity cells then humidity_values acc ++ values_of cells
    else humidity_values acc in
  Accumulators all_dates all_hours temp_values wind_values humidity_values.

Definition walk (rows : list Soup.node) : accumulators :=
  fold_left row_step rows empty.

(** From the parsed page to the five lists: the table, its rows, the
    walk. *)
Definition parse_table (soup : Soup.soup) : result accumulators :=
  table <- App.select_table soup ;;
  let rows := Soup.tag_find_all "tr" table in
  Ok (walk rows).

(** What a row gives to the list whose label test is [test]. *)
Definition gives (test : list Soup.node -> bool) (row : Soup.node)
  : list string :=
  if test (cells_of row) then values_of (cells_of row) else [].

End Walk.

(** ** The digital-forecast steps chained ([app.py] 263-302) *)

Module Pipeline.

(** Reassembly, formatting, frame and export, from the five lists. *)
Definition forecast_records (acc : Walk.accumulators)
  : result (list Scraper.csv_row) :=
  formatted <- Format.display_dates (Walk.all_dates acc) (Walk.all_hours acc) ;;
  App.build_records formatted (Walk.temp_values acc) (Walk.wind_values acc)
    (Walk.humidity_values acc).

End Pipeline.

(** ** [build_weather_gov_url_from_location] *)

Module Location.

Definition build_weather_gov_url_from_location
    (requests_get : Http.client) (location : string) : result string :=
  ' (lat, lon) <- Scraper.get_coordinates requests_get location ;;
  Ok ("https://forecast.weather.gov/MapClick.php?lat=" ++ lat
        ++ "&lon=" ++ lon)%string.

End Location.

(** ** [get_weather_data_accuweather] *)

Module AccuWeather.

(** What [requests.get(url, headers=headers, timeout=10)] can do: answer,
    raise [requests.Timeout], or raise another exception. *)
Inductive reply : Type :=
| Answered (response : Http.response)
| TimedOut
| Failed (e : exn).

Definition client : Type := string -> reply.

(** [not x] for an argument that is [None] or a string. *)
Definition falsy (x : option string) : bool :=
  match x with
  | None => true
  | Some s => String.eqb s ""
  end.

(** [f"{x}"] for the same. *)
Definition fstr (x : option string) : string :=
  match x with
  | None => "None"
  | Some s => s
  end.

(** [class_=cls] on a tag: one of its classes is [cls], or the whole
    attribute is. *)
Definition has_class_attr (cls : string) (n : Soup.node) : bool :=
  match n with
  | Soup.Tag _ _ classes _ =>
      existsb (String.eqb cls) classes
      || String.eqb (String.concat " " classes) cls
  | Soup.NavigableString _ => false
  end.

Definition is_div (cls : string) (n : Soup.node) : bool :=
  Soup.has_name "div" n && has_class_attr cls n.

(** The body of [for item in details], on the state [(humidity, wind)].
    A tag is always true in a condition. *)
Definition detail_item (st : string * string) (item : Soup.node)
  : string * string :=
  let '(humidity, wind) := st in
  let label := find (is_div "label") (Soup.descendants item) in
  let value := find (is_div "value") (Soup.descendants item) in
  match label, value with
  | Some label, Some value =>
      let humidity :=
        if Text.contains "Humidity" (Soup.text label)
        then Text.strip (Soup.text value) else humidity in
      let wind :=
        if Text.contains "Wind" (Soup.text label)
        then Text.strip (Soup.text value) else wind in
      (humidity, wind)
  | _, _ => (humidity, wind)
  end.

(** The statements of the [try] block once the page is received. *)
Definition scrape (response : Http.response)
  : result Scraper.current_weather :=
  if negb (Http.status_code response =? 200)%Z then
    Raise (Exception
      ("Failed to fetch AccuWeather page: "
         ++ Text.str_int (Http.status_code response))%string)
  else
    let soup := Http.content response in
    let temp_div := find (is_div "display-temp") (Soup.all_nodes soup) in
    let temperature :=
      match temp_div with
      | Some t => Text.strip (Soup.text t)
      | None => "N/A"
      end in
    let cond_div := find (is_div "phrase") (Soup.all_nodes soup) in
    let conditions :=
      match cond_div with
      | Some c => Text.strip (Soup.text c)
      | None => "N/A"
      end in
    let details :=
      filter (is_div "detail-item spaced-content") (Soup.all_nodes soup) in
    let '(humidity, wind) :=
      fold_left detail_item details ("N/A", "N/A") in
    Ok (Scraper.CurrentWeather temperature humidity wind conditions).

Definition get_weather_data_accuweather (requests_get : client)
    (url city_slug : option string) : result Scraper.current_weather :=
  if falsy url && falsy city_slug then
    Raise (ValueError "Must provide either url or city_slug.")
  else
    let url :=
      if falsy url
      then ("https://www.accuweather.com/en/" ++ fstr city_slug)%string
      else fstr url in
    match requests_get url with
    | TimedOut =>
        Raise (Exception
          "Timeout while fetching weather data from AccuWeather. Please try again later.")
    | Failed e =>
        Raise (Exception
          ("Error in get_weather_data_accuweather: " ++ str_exn e)%string)
    | Answered response =>
        try_except (scrape response)
          (fun e =>
             Raise (Exception
               ("Error in get_weather_data_accuweather: "
                  ++ str_exn e)%string))
    end.

End AccuWeather.

(** ** [get_city_state_from_coords] ([app.py] 28-36,
    [weather_app.py] 115-123) *)

Module Reverse.

#[local] Set Warnings "-register-all".

(** A decoded JSON value. *)
Inductive json : Type :=
| JNull
| JBool (b : bool)
| JNum (z : Z)
| JStr (s : string)
| JArr (items : list json)
| JObj (items : list (string * json)).

(** The truth value Python gives it. *)
Definition truthy (j : json) : bool :=
  match j with
  | JNull => false
  | JBool b => b
  | JNum z => negb (z =? 0)%Z
  | JStr s => negb (String.eqb s "")
  | JArr items => match items with [] => false | _ => true end
  | JObj items => match items with [] => false | _ => true end
  end.

Definition type_name (j : json) : string :=
  match j with
  | JNull => "NoneType"
  | JBool _ => "bool"
  | JNum _ => "int"
  | JStr _ => "str"
  | JArr _ => "list"
  | JObj _ => "dict"
  end.

Fixpoint lookup (key : string) (items : list (string * json))
  : option json :=
  match items with
  | [] => None
  | (k, v) :: rest => if String.eqb k key then Some v else lookup key rest
  end.

(** [j.get(key, default)]: only a dict has the method. *)
Definition get (j : json) (key : string) (default : json) : result json :=
  match j with
  | JObj items =>
      Ok match lookup key items with Some v => v | None => default end
  | _ =>
      Raise (AttributeError
        ("'" ++ type_name j ++ "' object has no attribute 'get'")%string)
  end.

(** [x or rest], [rest] evaluated only when [x] is false. *)
Definition or_else (x : json) (rest : result json) : result json :=
  if truthy x then Ok x else rest.

(** The response of the reverse lookup: only [resp.json()] is read. *)
Record response : Type := Response {
  status_code : Z;
  json_body : result json
}.

Definition client : Type := string -> result response.

Definition reverse_url (lat lon : string) : string :=
  ("https://nominatim.openstreetmap.org/reverse?format=json&lat=" ++ lat
     ++ "&lon=" ++ lon ++ "&zoom=10")%string.

Definition get_city_state_from_coords (requests_get : client)
    (lat lon : string) : result (json * json) :=
  let url := reverse_url lat lon in
  resp <- requests_get url ;;
  data <- json_body resp ;;
  address <- get data "address" (JObj []) ;;
  city <-
    (c <- get address "city" JNull ;;
     or_else c
       (t <- get address "town" JNull ;;
        or_else t
          (v <- get address "village" JNull ;;
           or_else v
             (h <- get address "hamlet" JNull ;;
              or_else h (Ok (JStr "")))))) ;;
  state <- (s <- get address "state" JNull ;; or_else s (Ok (JStr ""))) ;;
  Ok (city, state).

(** The first true value among the listed keys of an object, else the
    empty string. *)
Definition first_truthy (items : list (string * json))
    (keys : list string) : json :=
  match
    find truthy
      (map (fun k => match lookup k items with
                     | Some v => v
                     | None => JNull
                     end) keys)
  with
  | Some v => v
  | None => JStr ""
  end.

End Reverse.

(** ** Concrete inputs and the predicates the statements use *)

(** The two-day scenario. *)
Definition scenario_dates : list string := ["5/10"; "5/11"].
Definition scenario_hours : list string := ["22"; "23"; "0"; "1"; "2"].

(** Six sibling tables, told apart by their [id]. *)
Definition table_n (i : string) : Soup.node :=
  Soup.Tag "table" (Some i) [] [].

Definition six_tables : Soup.soup :=
  [Soup.Tag "html" None []
     [Soup.Tag "body" None []
        [table_n "t0"; table_n "t1"; table_n "t2";
         table_n "t3"; table_n "t4"; table_n "t5"]]].

(** A current-conditions page with a temperature cell and no conditions
    phrase. *)
Definition page_59 : Soup.soup :=
  [Soup.Tag "div" (Some "current_conditions-summary") []
     [Soup.Tag "p" None ["myforecast-current-lrg"]
        [Soup.NavigableString "59"]]].

(** A details table in which "Wind Chill" follows "Wind Speed". *)
Definition detail_line (label value : string) : Soup.node :=
  Soup.Tag "tr" None []
    [Soup.Tag "td" None [] [Soup.Tag "b" None [] [Soup.NavigableString label]];
     Soup.Tag "td" None [] [Soup.NavigableString value]].

Definition winter_page : Soup.soup :=
  [Soup.Tag "table" (Some "current_conditions_detail") []
     [detail_line "Humidity" "72%";
      detail_line "Wind Speed" "N 8 mph";
      detail_line "Barometer" "30.12 in";
      detail_line "Wind Chill" "25F (-4C)"]].

(** U+00A0, the no-break space of [&nbsp;], and U+FF17, the full-width
    digit seven, as their UTF-8 bytes. *)
Definition no_break_space : string :=
  String (ascii_of_nat 194) (String (ascii_of_nat 160) "").

Definition fullwidth_seven : string :=
  String (ascii_of_nat 239)
    (String (ascii_of_nat 188) (String (ascii_of_nat 151) "")).

(** A current-conditions page whose cells are padded with [&nbsp;]. *)
Definition padded_page : Soup.soup :=
  [Soup.Tag "p" None ["myforecast-current-lrg"]
     [Soup.NavigableString (no_break_space ++ "59" ++ no_break_space)];
   Soup.Tag "table" (Some "current_conditions_detail") []
     [detail_line "Wind Speed" (no_break_space ++ "N 8 mph")]].

(** A date row of three cells, the middle one holding only [&nbsp;]. *)
Definition sparse_date_row : Soup.node :=
  Soup.Tag "tr" None []
    [Soup.Tag "td" None [] [Soup.NavigableString "Date"];
     Soup.Tag "td" None [] [Soup.NavigableString "5/10"];
     Soup.Tag "td" None [] [Soup.NavigableString no_break_space];
     Soup.Tag "td" None [] [Soup.NavigableString "5/11"]].

(** A client that answers every request with [r]. *)
Definition serve (r : Http.response) : Http.client := fun _ => Ok r.

(** The row [save_forecast_to_csv] builds at index [i]. *)
Definition row_at (all_dates all_hours temp_values wind_values
    humidity_values : list string) (i : nat) : Scraper.csv_row :=
  Scraper.CsvRow (nth i all_dates "") (nth i all_hours "")
    (nth i temp_values "") (nth i wind_values "") (nth i humidity_values "").

(** The four columns have one length. *)
Definition aligned (formatted ts ws us : list string) : bool :=
  (length ts =? length formatted) && (length ws =? length formatted)
  && (length us =? length formatted).

(** A row of the details region names [word] when it has exactly two
    cells and the text of the first contains [word]. *)
Definition row_names (word : string) (row : Soup.node) : bool :=
  match Soup.tag_find_all "td" row with
  | [c0; _] => Text.contains word (Soup.get_text_strip c0)
  | _ => false
  end.

(** A byte that no strip removes and no split cuts at: ASCII, not white
    space, not a comma. *)
Definition plain_byte (c : ascii) : bool :=
  (Text.byte c <? 128)%N && negb (Text.is_space (Text.byte c))
  && negb (Ascii.eqb c ",").

(** * Properties *)

(** ** Lists and slices *)

Lemma skipn_length_firstn {A} (n : nat) (l : list A) :
  skipn (length (firstn n l)) l = skipn n l.
Proof.
  revert l; induction n as [|n IH]; intros [|a l]; simpl; auto.
Qed.

Lemma skipn_add {A} (n m : nat) (l : list A) :
  skipn (n + m) l = skipn m (skipn n l).
Proof.
  revert l; induction n as [|n IH]; intros l; simpl; auto.
  destruct l as [|a l]; simpl; auto.
  now rewrite skipn_nil.
Qed.

Lemma slice_block {A} (l : list A) (idx n : nat) :
  slice l idx (idx + n) = firstn n (skipn idx l).
Proof.
  unfold slice. now replace (idx + n - idx) with n by lia.
Qed.

Lemma slice_block_length {A} (l : list A) (idx n : nat) :
  idx + n <= length l -> length (slice l idx (idx + n)) = n.
Proof.
  intros H. rewrite slice_block, length_firstn, length_skipn. lia.
Qed.

Lemma slice_taken {A} (l : list A) (idx n : nat) :
  slice l idx (idx + length (firstn n (skipn idx l)))
  = firstn n (skipn idx l).
Proof.
  rewrite slice_block.
  rewrite <- (firstn_all (firstn n (skipn idx l))) at 2.
  rewrite firstn_firstn.
  rewrite Nat.min_l; [reflexivity|].
  rewrite length_firstn. lia.
Qed.

Lemma slice_rest {A} (l : list A) (idx : nat) :
  slice l idx (idx + length (skipn idx l)) = skipn idx l.
Proof.
  rewrite slice_block. apply firstn_all.
Qed.

Lemma skipn_past {A} (l : list A) (idx : nat) :
  length l <= idx -> skipn idx l = [].
Proof. apply skipn_all2. Qed.

Lemma index_last_ok (l : list string) :
  l <> [] -> index_last l = Ok (last l "").
Proof. destruct l; [congruence | reflexivity]. Qed.

(** ** The reassembly loop *)

Section Loop.

Import Reassembly.

Variables (all_dates all_hours : list string) (hours_per_block : nat).
Variable last_date : string.
Hypothesis Hlast : index_last all_dates = Ok last_date.

Let loop := trace_loop all_dates all_hours hours_per_block.

Lemma hours_of_last (idx : nat) (date : string) :
  date = last_date ->
  hours_of all_dates all_hours hours_per_block idx date
  = Ok (skipn idx all_hours).
Proof.
  intros ->. unfold hours_of. rewrite Hlast. simpl.
  now rewrite String.eqb_refl.
Qed.

Lemma hours_of_other (idx : nat) (date : string) :
  date <> last_date ->
  hours_of all_dates all_hours hours_per_block idx date
  = Ok (firstn hours_per_block (skipn idx all_hours)).
Proof.
  intros Hne. unfold hours_of. rewrite Hlast. simpl.
  apply String.eqb_neq in Hne. rewrite Hne.
  now rewrite slice_block.
Qed.

(** The block of a date is one of the two slices. *)
Lemma hours_of_cases (idx : nat) (date : string) :
  exists hours,
    hours_of all_dates all_hours hours_per_block idx date = Ok hours /\
    ((date = last_date /\ hours = skipn idx all_hours) \/
     (date <> last_date /\
      hours = firstn hours_per_block (skipn idx all_hours))).
Proof.
  destruct (string_dec date last_date) as [E|E].
  - eexists; split; [now apply hours_of_last | now left].
  - eexists; split; [now apply hours_of_other | now right].
Qed.

(** The loop never raises, and runs once per date. *)
Lemma trace_loop_total (todo : list string) :
  forall idx, exists tr,
    loop todo idx = Ok tr /\ map it_date tr = todo.
Proof.
  induction todo as [|d rest IH]; intros idx.
  - exists []. now split.
  - destruct (hours_of_cases idx d) as (hs & Hh & _).
    destruct (IH (idx + length hs)) as (tl & Htl & Hd).
    exists (Iteration d idx hs :: tl). split.
    + unfold loop in *. simpl. rewrite Hh. simpl. rewrite Htl. reflexivity.
    + simpl. now rewrite Hd.
Qed.

(** Inversion of one step of the recorded loop. *)
Lemma trace_loop_cons (d : string) (rest : list string) (idx : nat)
    (tr : list iteration) :
  loop (d :: rest) idx = Ok tr ->
  exists hs tl,
    hours_of all_dates all_hours hours_per_block idx d = Ok hs /\
    loop rest (idx + length hs) = Ok tl /\
    tr = Iteration d idx hs :: tl.
Proof.
  unfold loop. simpl.
  destruct (hours_of all_dates all_hours hours_per_block idx d)
    as [hs|e]; simpl; [|discriminate].
  destruct (trace_loop all_dates all_hours hours_per_block rest
              (idx + length hs)) as [tl|e] eqn:Etl; simpl; [|discriminate].
  intros [= <-]. exists hs, tl. auto.
Qed.

(** The recorded loop and the loop of the script agree. *)
Lemma combine_loop_trace (todo : list string) :
  forall idx combined tr,
    loop todo idx = Ok tr ->
    combine_loop all_dates all_hours hours_per_block todo (idx, combined)
    = Ok (final_idx idx tr, combined ++ pairs_of tr).
Proof.
  induction todo as [|d rest IH]; intros idx combined tr H.
  - unfold loop in H. simpl in H. injection H as <-. simpl.
    unfold pairs_of. simpl. now rewrite app_nil_r.
  - apply trace_loop_cons in H. destruct H as (hs & tl & Hh & Htl & ->).
    simpl. rewrite Hh. simpl. rewrite (IH _ _ _ Htl).
    unfold pairs_of, pairs_of_iteration. simpl.
    now rewrite <- app_assoc.
Qed.

Lemma trace_loop_chained (todo : list string) :
  forall idx tr, loop todo idx = Ok tr -> chained all_hours idx tr.
Proof.
  induction todo as [|d rest IH]; intros idx tr H.
  - unfold loop in H. simpl in H. injection H as <-. exact I.
  - apply trace_loop_cons in H. destruct H as (hs & tl & Hh & Htl & ->).
    simpl. split; [reflexivity|]. split; [|now apply IH].
    destruct (hours_of_cases idx d) as (hs' & Hh' & Hc).
    rewrite Hh in Hh'. injection Hh' as <-.
    destruct Hc as [[_ ->]|[_ ->]].
    + now rewrite slice_rest.
    + now rewrite slice_taken.
Qed.

(** Once the cursor is at the end every block is empty. *)
Lemma trace_loop_exhausted (todo : list string) :
  forall idx tr,
    length all_hours <= idx ->
    loop todo idx = Ok tr ->
    Forall (fun it => it_hours it = []) tr.
Proof.
  induction todo as [|d rest IH]; intros idx tr Hle H.
  - unfold loop in H. simpl in H. injection H as <-. constructor.
  - apply trace_loop_cons in H. destruct H as (hs & tl & Hh & Htl & ->).
    assert (Hs : skipn idx all_hours = []) by now apply skipn_past.
    destruct (hours_of_cases idx d) as (hs' & Hh' & Hc).
    rewrite Hh in Hh'. injection Hh' as <-.
    assert (hs = []) as ->.
    { destruct Hc as [[_ ->]|[_ ->]]; rewrite Hs; auto using firstn_nil. }
    constructor; [reflexivity|].
    apply (IH (idx + 0)); [lia | exact Htl].
Qed.

(** The blocks, put end to end, are the hours from the cursor on, as soon
    as the dates still to come end with the last date. *)
Lemma trace_loop_concat (todo : list string) :
  forall idx tr,
    todo <> [] -> last todo "" = last_date ->
    loop todo idx = Ok tr ->
    concat (map it_hours tr) = skipn idx all_hours.
Proof.
  induction todo as [|d rest IH]; intros idx tr Hne Hl H; [congruence|].
  apply trace_loop_cons in H. destruct H as (hs & tl & Hh & Htl & ->).
  simpl.
  destruct (hours_of_cases idx d) as (hs' & Hh' & Hc).
  rewrite Hh in Hh'. injection Hh' as <-.
  destruct Hc as [[_ ->]|[Hd ->]].
  - assert (Hex : Forall (fun it => it_hours it = []) tl).
    { apply (trace_loop_exhausted rest (idx + length (skipn idx all_hours)));
        [rewrite length_skipn; lia | exact Htl]. }
    assert (concat (map it_hours tl) = []) as ->.
    { clear - Hex. induction Hex as [|it l E _ IHl]; simpl; auto.
      now rewrite E, IHl. }
    now rewrite app_nil_r.
  - destruct rest as [|d' rest'].
    { simpl in Hl. congruence. }
    rewrite (IH _ _ (ltac:(discriminate)) Hl Htl).
    rewrite skipn_add, skipn_length_firstn.
    apply firstn_skipn.
Qed.

(** The first date equal to the last one takes everything that is left;
    the dates after it take nothing. *)
Lemma trace_loop_absorb (todo : list string) :
  forall idx tr j,
    loop todo idx = Ok tr ->
    j < length todo ->
    nth j todo "" = last_date ->
    (forall i, i < j -> nth i todo "" <> last_date) ->
    exists it,
      nth_error tr j = Some it /\
      it_date it = last_date /\
      it_hours it = slice_from all_hours (it_idx it) /\
      forall k it', j < k -> nth_error tr k = Some it' -> it_hours it' = [].
Proof.
  induction todo as [|d rest IH]; intros idx tr j H Hj Hn Hbefore;
    [simpl in Hj; lia|].
  apply trace_loop_cons in H. destruct H as (hs & tl & Hh & Htl & ->).
  destruct j as [|j].
  - simpl in Hn. subst d.
    rewrite hours_of_last in Hh by reflexivity. injection Hh as <-.
    eexists. split; [reflexivity|]. simpl. repeat split.
    intros k it' Hk Hit. destruct k as [|k]; [lia|]. simpl in Hit.
    assert (Hex : Forall (fun it => it_hours it = []) tl).
    { apply (trace_loop_exhausted rest (idx + length (skipn idx all_hours)));
        [rewrite length_skipn; lia | exact Htl]. }
    rewrite Forall_forall in Hex. apply Hex.
    eapply nth_error_In; eauto.
  - simpl in Hj, Hn.
    destruct (IH (idx + length hs) tl j Htl) as (it & Hit & Hd & Hhs & Hafter);
      [lia | exact Hn | |].
    { intros i Hi. apply (Hbefore (S i)). lia. }
    exists it. split; [exact Hit|]. split; [exact Hd|]. split; [exact Hhs|].
    intros k it' Hk Hit'. destruct k as [|k]; [lia|].
    simpl in Hit'. apply (Hafter k it'); [lia | exact Hit'].
Qed.

(** When no date before the last position equals the last date, block
    [i] starts at [idx + i * hours_per_block]. *)
Lemma trace_loop_regular (todo : list string) :
  forall idx tr,
    loop todo idx = Ok tr ->
    todo <> [] -> last todo "" = last_date ->
    (forall i, i < length todo - 1 -> nth i todo "" <> last_date) ->
    idx + (length todo - 1) * hours_per_block <= length all_hours ->
    (forall i, i < length todo - 1 ->
       nth_error tr i =
       Some (Iteration (nth i todo "") (idx + i * hours_per_block)
               (slice all_hours (idx + i * hours_per_block)
                  (idx + i * hours_per_block + hours_per_block)))) /\
    nth_error tr (length todo - 1) =
    Some (Iteration last_date (idx + (length todo - 1) * hours_per_block)
            (slice_from all_hours
               (idx + (length todo - 1) * hours_per_block))).
Proof.
  induction todo as [|d rest IH]; intros idx tr H Hne Hl Hdist Hfit;
    [congruence|].
  apply trace_loop_cons in H. destruct H as (hs & tl & Hh & Htl & ->).
  destruct rest as [|d' rest'].
  - simpl in Hl. subst d.
    rewrite hours_of_last in Hh by reflexivity. injection Hh as <-.
    simpl. split; [intros i Hi; lia|].
    now rewrite Nat.add_0_r.
  - assert (Hd : d <> last_date) by (apply (Hdist 0); simpl; lia).
    rewrite hours_of_other in Hh by exact Hd. injection Hh as <-.
    simpl length in *.
    assert (Hlen : length (firstn hours_per_block (skipn idx all_hours))
                   = hours_per_block).
    { rewrite length_firstn, length_skipn.
      replace (S (S (length rest')) - 1) with (S (length rest')) in Hfit by lia.
      simpl in Hfit. lia. }
    rewrite Hlen in Htl.
    destruct (IH (idx + hours_per_block) tl Htl) as (Hi & Hlast');
      [discriminate | exact Hl | | |].
    { intros i Hi. apply (Hdist (S i)). simpl in *. lia. }
    { simpl length.
      replace (S (S (length rest')) - 1) with (S (length rest')) in Hfit by lia.
      replace (S (length rest') - 1) with (length rest') by lia.
      simpl in Hfit. lia. }
    simpl length in *.
    replace (S (S (length rest')) - 1) with (S (length rest')) by lia.
    replace (S (length rest') - 1) with (length rest') in * by lia.
    split.
    + intros i Hlt. destruct i as [|i].
      * simpl. rewrite !Nat.add_0_r. now rewrite slice_block.
      * simpl nth_error. rewrite (Hi i) by lia.
        simpl nth.
        now replace (idx + hours_per_block + i * hours_per_block)
          with (idx + S i * hours_per_block) by (simpl; lia).
    + simpl nth_error. rewrite Hlast'.
      now replace (idx + hours_per_block + length rest' * hours_per_block)
        with (idx + S (length rest') * hours_per_block) by (simpl; lia).
Qed.

End Loop.

(** ** Reassembly as a whole *)

Lemma final_idx_concat (tr : list Reassembly.iteration) :
  forall idx,
    Reassembly.final_idx idx tr
    = idx + length (concat (map Reassembly.it_hours tr)).
Proof.
  unfold Reassembly.final_idx.
  induction tr as [|it tl IH]; intros idx; simpl; [lia|].
  rewrite IH, length_app. lia.
Qed.

Lemma pairs_of_hours (tr : list Reassembly.iteration) :
  map snd (Reassembly.pairs_of tr) = concat (map Reassembly.it_hours tr).
Proof.
  unfold Reassembly.pairs_of.
  induction tr as [|it tl IH]; simpl; [reflexivity|].
  rewrite map_app, IH. f_equal.
  unfold Reassembly.pairs_of_iteration. rewrite map_map. simpl.
  apply map_id.
Qed.

Lemma guard_true (all_dates all_hours : list string) :
  0 < length all_dates -> 0 < length all_hours ->
  (0 <? length all_dates) && (0 <? length all_hours) = true.
Proof.
  intros HD HH. apply andb_true_iff. split; now apply Nat.ltb_lt.
Qed.

Lemma nonempty_of_length (l : list string) : 0 < length l -> l <> [].
Proof. destruct l; simpl; [lia | discriminate]. Qed.

(** With both accumulators non-empty the script's pairs are those of the
    recorded run. *)
Lemma combine_of_trace (all_dates all_hours : list string) :
  0 < length all_dates -> 0 < length all_hours ->
  exists tr,
    Reassembly.trace all_dates all_hours = Ok tr /\
    Reassembly.trace_loop all_dates all_hours
      (length all_hours / length all_dates) all_dates 0 = Ok tr /\
    Reassembly.combine all_dates all_hours = Ok (Reassembly.pairs_of tr) /\
    map Reassembly.it_date tr = all_dates.
Proof.
  intros HD HH.
  pose proof (index_last_ok all_dates (nonempty_of_length _ HD)) as Hl.
  destruct (trace_loop_total all_dates all_hours
              (length all_hours / length all_dates) _ Hl all_dates 0)
    as (tr & Htr & Hd).
  exists tr. unfold Reassembly.trace, Reassembly.combine.
  rewrite guard_true by assumption. repeat split; try assumption.
  rewrite (combine_loop_trace _ _ _ all_dates 0 [] tr Htr).
  reflexivity.
Qed.

(** With an empty dates or hours list the guard skips the loop: no pair,
    no display string, and nothing raised by either step. *)
Lemma empty_accumulator_no_pairs (all_dates all_hours : list string) :
  all_dates = [] \/ all_hours = [] ->
  Reassembly.combine all_dates all_hours = Ok [] /\
  Reassembly.trace all_dates all_hours = Ok [] /\
  Format.display_dates all_dates all_hours = Ok [].
Proof.
  intros H.
  assert (G : (0 <? length all_dates) && (0 <? length all_hours) = false).
  { destruct H as [-> | ->]; simpl; [reflexivity|].
    now rewrite andb_false_r. }
  unfold Format.display_dates, Reassembly.combine, Reassembly.trace.
  rewrite G. repeat split.
Qed.

(** C5, as the code has it: when the dates list or the hours list is
    empty, the reassembly yields the empty pair list and the empty display
    list and raises nothing; the records built next are the empty
    sequence when the three value lists are empty too, and the frame
    construction raises [ValueError] as soon as one of them holds a
    value. *)
Theorem empty_accumulator_records (acc : Walk.accumulators) :
  Walk.all_dates acc = [] \/ Walk.all_hours acc = [] ->
  Reassembly.combine (Walk.all_dates acc) (Walk.all_hours acc) = Ok [] /\
  Format.display_dates (Walk.all_dates acc) (Walk.all_hours acc) = Ok [] /\
  (Walk.temp_values acc = [] /\ Walk.wind_values acc = [] /\
   Walk.humidity_values acc = [] ->
   Pipeline.forecast_records acc = Ok []) /\
  (~ (Walk.temp_values acc = [] /\ Walk.wind_values acc = [] /\
      Walk.humidity_values acc = []) ->
   Pipeline.forecast_records acc
   = Raise (ValueError "All arrays must be of the same length")).
Proof.
  intros H.
  destruct (empty_accumulator_no_pairs _ _ H) as (Hc & _ & Hd).
  split; [exact Hc|]. split; [exact Hd|].
  unfold Pipeline.forecast_records. rewrite Hd. cbn [bind].
  unfold App.build_records, App.DataFrame. cbn [length].
  split.
  - intros (-> & -> & ->). reflexivity.
  - intros Hno.
    destruct (Walk.temp_values acc) as [|t ts]; [|reflexivity].
    destruct (Walk.wind_values acc) as [|w ws]; [|reflexivity].
    destruct (Walk.humidity_values acc) as [|u us]; [|reflexivity].
    exfalso. apply Hno. repeat split.
Qed.

Lemma empty_accumulator_records_witness :
  Pipeline.forecast_records (Walk.Accumulators ["5/10"] [] [] [] [])
  = Ok [] /\
  Pipeline.forecast_records
    (Walk.Accumulators [] ["22"; "23"] ["59"; "58"] ["5"; "6"] ["40"; "41"])
  = Raise (ValueError "All arrays must be of the same length").
Proof.
  split.
  - apply (empty_accumulator_records
             (Walk.Accumulators ["5/10"] [] [] [] [])).
    + now right.
    + repeat split.
  - apply (empty_accumulator_records
             (Walk.Accumulators [] ["22"; "23"] ["59"; "58"] ["5"; "6"]
                ["40"; "41"])).
    + now left.
    + intros (Ht & _). discriminate.
Defined.

(** C5, as stated, fails: on a table without a date row but with hours
    and values the reassembly is empty, yet the records are not an empty
    sequence: building them raises; the same holds without an hour
    row. *)
Lemma empty_accumulator_can_raise :
  Reassembly.combine [] ["22"; "23"] = Ok [] /\
  Pipeline.forecast_records
    (Walk.Accumulators [] ["22"; "23"] ["59"; "58"] ["5"; "6"] ["40"; "41"])
  <> Ok [] /\
  raises (Pipeline.forecast_records
            (Walk.Accumulators [] ["22"; "23"] ["59"; "58"] ["5"; "6"]
               ["40"; "41"])) = true /\
  raises (Pipeline.forecast_records
            (Walk.Accumulators ["5/10"] [] ["59"] ["5"] ["40"])) = true.
Proof.
  split; [reflexivity|]. split; [discriminate|]. split; reflexivity.
Qed.

(** C9: with both accumulators non-empty, repeated labels or not, the
    loop emits exactly [H] pairs, whose hours are the hours list in order;
    each block is the slice of the hours list at the cursor, the cursor
    moves by the length of the block and ends at [H]; the first date equal
    to the final date takes all that is left and every later date takes
    nothing. *)
Theorem reassembly_emits_every_hour (all_dates all_hours : list string) :
  0 < length all_dates -> 0 < length all_hours ->
  exists tr,
    Reassembly.trace all_dates all_hours = Ok tr /\
    Reassembly.combine all_dates all_hours = Ok (Reassembly.pairs_of tr) /\
    map Reassembly.it_date tr = all_dates /\
    length (Reassembly.pairs_of tr) = length all_hours /\
    map snd (Reassembly.pairs_of tr) = all_hours /\
    Reassembly.chained all_hours 0 tr /\
    Reassembly.final_idx 0 tr = length all_hours /\
    forall j,
      j < length all_dates ->
      nth j all_dates "" = last all_dates "" ->
      (forall i, i < j -> nth i all_dates "" <> last all_dates "") ->
      exists it,
        nth_error tr j = Some it /\
        Reassembly.it_hours it
        = slice_from all_hours (Reassembly.it_idx it) /\
        forall k it', j < k -> nth_error tr k = Some it' ->
                      Reassembly.it_hours it' = [].
Proof.
  intros HD HH.
  pose proof (nonempty_of_length _ HD) as Hne.
  pose proof (index_last_ok all_dates Hne) as Hl.
  destruct (combine_of_trace all_dates all_hours HD HH)
    as (tr & Htrace & Hloop & Hcomb & Hdates).
  pose proof (trace_loop_concat _ _ _ _ Hl all_dates 0 tr Hne eq_refl Hloop)
    as Hcat.
  simpl in Hcat.
  exists tr. repeat split; try assumption.
  - rewrite <- (length_map snd), pairs_of_hours, Hcat. reflexivity.
  - now rewrite pairs_of_hours.
  - exact (trace_loop_chained _ _ _ _ Hl all_dates 0 tr Hloop).
  - rewrite final_idx_concat, Hcat. reflexivity.
  - intros j Hj Hn Hbefore.
    destruct (trace_loop_absorb _ _ _ _ Hl all_dates 0 tr j Hloop Hj Hn Hbefore)
      as (it & Hit & _ & Hhs & Hafter).
    exists it. auto.
Qed.

Lemma reassembly_emits_every_hour_witness :
  exists tr,
    Reassembly.trace ["5/11"; "5/11"] ["0"; "1"; "2"; "3"] = Ok tr /\
    length (Reassembly.pairs_of tr) = 4.
Proof.
  destruct (reassembly_emits_every_hour ["5/11"; "5/11"] ["0"; "1"; "2"; "3"])
    as (tr & Htr & _ & _ & Hlen & _); [simpl; lia | simpl; lia |].
  exists tr. split; [exact Htr | exact Hlen].
Defined.

(** C1, as the code has it: when no date before the last position equals
    the last date, every date but the last takes exactly [block = H // D]
    consecutive hours from the cursor, the last takes the rest, and the
    cursor moves by what was taken; the two-day scenario pairs "5/10" with
    22, 23 and "5/11" with 0, 1, 2. *)
Theorem reassembly_by_position (all_dates all_hours : list string) :
  0 < length all_dates -> 0 < length all_hours ->
  (forall i, i < length all_dates - 1 ->
             nth i all_dates "" <> last all_dates "") ->
  Reassembly.by_position all_dates all_hours /\
  (exists tr, Reassembly.trace all_dates all_hours = Ok tr /\
              Reassembly.chained all_hours 0 tr) /\
  Reassembly.combine scenario_dates scenario_hours
  = Ok [("5/10", "22"); ("5/10", "23");
        ("5/11", "0"); ("5/11", "1"); ("5/11", "2")].
Proof.
  intros HD HH Hdist.
  pose proof (nonempty_of_length _ HD) as Hne.
  pose proof (index_last_ok all_dates Hne) as Hl.
  destruct (combine_of_trace all_dates all_hours HD HH)
    as (tr & Htrace & Hloop & Hcomb & Hdates).
  set (block := length all_hours / length all_dates) in *.
  assert (Hfit : 0 + (length all_dates - 1) * block <= length all_hours).
  { simpl. transitivity (length all_dates * block).
    - apply Nat.mul_le_mono_r. lia.
    - apply Nat.Div0.mul_div_le. }
  destruct (trace_loop_regular _ _ _ _ Hl all_dates 0 tr Hloop Hne eq_refl
              Hdist Hfit) as (Hi & Hlast).
  simpl in Hi, Hlast.
  split; [|split; [|reflexivity]].
  - exists tr. fold block. repeat split; try assumption.
    + now rewrite <- (length_map Reassembly.it_date tr), Hdates.
    + now apply Hi.
    + apply slice_block_length.
      assert (S i * block <= (length all_dates - 1) * block)
        by (apply Nat.mul_le_mono_r; lia).
      simpl in *. lia.
  - exists tr. split; [assumption|].
    exact (trace_loop_chained _ _ _ _ Hl all_dates 0 tr Hloop).
Qed.

Lemma reassembly_by_position_witness :
  Reassembly.by_position scenario_dates scenario_hours.
Proof.
  apply (reassembly_by_position scenario_dates scenario_hours).
  - simpl. lia.
  - simpl. lia.
  - intros i Hi. simpl in Hi.
    assert (i = 0) as -> by lia. simpl. discriminate.
Defined.

(** C1, as stated for every dates list, fails when the label of the last
    date occurs earlier: here [block = 4 // 2 = 2], yet the date at
    position 0 takes all four hours. *)
Lemma reassembly_by_position_fails_on_repeated_last :
  Reassembly.trace ["5/11"; "5/11"] ["0"; "1"; "2"; "3"]
  = Ok [Reassembly.Iteration "5/11" 0 ["0"; "1"; "2"; "3"];
        Reassembly.Iteration "5/11" 4 []] /\
  ~ Reassembly.by_position ["5/11"; "5/11"] ["0"; "1"; "2"; "3"].
Proof.
  split; [reflexivity|].
  intros (tr & Htr & _ & _ & Hi & _).
  destruct (Hi 0) as [H0 _]; [simpl; lia|].
  cbv in Htr. injection Htr as <-.
  simpl in H0. discriminate.
Qed.

(** ** Display formatting *)

Lemma int_cases (s : string) :
  (exists n, Text.int s = Ok n) \/
  (exists msg, Text.int s = Raise (ValueError msg)).
Proof.
  unfold Text.int.
  destruct (Text.to_ascii (Text.chars s)) as [a|];
    [|right; eexists; reflexivity].
  destruct (Text.int_literal _) as [z|].
  - left. now exists z.
  - right. eexists. reflexivity.
Qed.

(** The handler around the date conversion leaves no way to raise. *)
Lemma date_str_of_total (b : Format.datetime_binding) (date : string) :
  exists s, Format.date_str_of b date = Ok s.
Proof.
  unfold Format.date_str_of, try_except.
  destruct (strptime <- Format.getattr_strptime b ;;
            dt <- strptime date ;; Ok (Format.strftime_B_d dt)) as [s|e];
    eexists; reflexivity.
Qed.

(** With the module bound to [datetime] the handler always runs. *)
Lemma date_str_of_module (date : string) :
  Format.date_str_of Format.datetime date = Ok date.
Proof. reflexivity. Qed.


Lemma format_pair_with_ok (b : Format.datetime_binding)
    (date hour : string) (n : Z) :
  Text.int hour = Ok n ->
  exists date_str,
    Format.date_str_of b date = Ok date_str /\
    Format.format_pair_with b (date, hour)
    = Ok (date_str ++ ", " ++ (Text.format_02d n ++ ":00"))%string.
Proof.
  intros Hn. destruct (date_str_of_total b date) as (s & Hs).
  exists s. split; [exact Hs|].
  unfold Format.format_pair_with. rewrite Hs. simpl. now rewrite Hn.
Qed.

Lemma format_pair_with_raise (b : Format.datetime_binding)
    (date hour : string) (e : exn) :
  Text.int hour = Raise e ->
  Format.format_pair_with b (date, hour) = Raise e.
Proof.
  intros Hn. destruct (date_str_of_total b date) as (s & Hs).
  unfold Format.format_pair_with. rewrite Hs. simpl. now rewrite Hn.
Qed.

Lemma format_loop_cons (b : Format.datetime_binding)
    (p : string * string) (rest : list (string * string))
    (formatted : list string) :
  Format.format_loop_with b (p :: rest) formatted
  = (s <- Format.format_pair_with b p ;;
     Format.format_loop_with b rest (formatted ++ [s])).
Proof. reflexivity. Qed.





(** C3, evaluated on the code: [datetime] is the module, the lookup of
    [strptime] on it raises [AttributeError], the handler keeps the raw
    date, and the scenario shows "5/10, 22:00" where the claim expects
    "May 10, 22:00".  Had the name been bound to the class, the same loop
    would produce the strings of the claim. *)
Theorem display_of_scenario_keeps_raw_dates :
  Format.display_dates scenario_dates scenario_hours
  = Ok ["5/10, 22:00"; "5/10, 23:00";
        "5/11, 00:00"; "5/11, 01:00"; "5/11, 02:00"] /\
  (forall date hour,
     Format.format_pair (date, hour)
     = (n <- Text.int hour ;;
        Ok (date ++ ", " ++ (Text.format_02d n ++ ":00"))%string)) /\
  (combined <- Reassembly.combine scenario_dates scenario_hours ;;
   Format.format_loop_with Format.datetime_class combined [])
  = Ok ["May 10, 22:00"; "May 10, 23:00";
        "May 11, 00:00"; "May 11, 01:00"; "May 11, 02:00"].
Proof.
  split; [reflexivity|]. split; [|reflexivity].
  intros date hour. reflexivity.
Qed.

(** ** Table selection *)

(** Siblings are enumerated left to right, a tag before its contents. *)
Lemma all_nodes_app (doc1 doc2 : Soup.soup) :
  Soup.all_nodes (doc1 ++ doc2) = Soup.all_nodes doc1 ++ Soup.all_nodes doc2.
Proof. unfold Soup.all_nodes. apply flat_map_app. Qed.

Lemma all_nodes_tag (name : string) (id : option string)
    (classes : list string) (contents : list Soup.node) :
  Soup.all_nodes [Soup.Tag name id classes contents]
  = Soup.Tag name id classes contents :: Soup.all_nodes contents.
Proof. unfold Soup.all_nodes. simpl. now rewrite app_nil_r. Qed.

Lemma find_all_app (name : string) (doc1 doc2 : Soup.soup) :
  Soup.find_all name (doc1 ++ doc2)
  = Soup.find_all name doc1 ++ Soup.find_all name doc2.
Proof.
  unfold Soup.find_all. rewrite all_nodes_app. apply filter_app.
Qed.

Lemma index_cases {A} (l : list A) (i : nat) :
  (i < length l -> exists a, nth_error l i = Some a /\ Http.index l i = Ok a)
  /\
  (length l <= i ->
   Http.index l i = Raise (IndexError "list index out of range")).
Proof.
  unfold Http.index. split; intros H.
  - destruct (nth_error l i) as [a|] eqn:E.
    + now exists a.
    + apply nth_error_None in E. lia.
  - apply nth_error_None in H. now rewrite H.
Qed.

(** C2, as the code has it: the tables are enumerated in document order
    (siblings left to right, a table before the tables nested in it) and
    the one at 0-based index 4, the fifth, is taken; a page with fewer
    than five tables raises [IndexError]. *)
Theorem select_table_takes_fifth (soup : Soup.soup) :
  let tables := Soup.find_all "table" soup in
  (forall doc1 doc2,
     Soup.find_all "table" (doc1 ++ doc2)
     = Soup.find_all "table" doc1 ++ Soup.find_all "table" doc2) /\
  (forall id classes contents,
     Soup.find_all "table" [Soup.Tag "table" id classes contents]
     = Soup.Tag "table" id classes contents
       :: Soup.find_all "table" contents) /\
  App.select_table soup = Http.index tables 4 /\
  (5 <= length tables ->
   exists t, nth_error tables 4 = Some t /\ App.select_table soup = Ok t) /\
  (length tables < 5 ->
   App.select_table soup = Raise (IndexError "list index out of range")).
Proof.
  intros tables. split; [intros; apply find_all_app|].
  split.
  { intros id classes contents. unfold Soup.find_all.
    rewrite all_nodes_tag. reflexivity. }
  split; [reflexivity|].
  unfold App.select_table, App.table_index. fold tables.
  destruct (index_cases tables 4) as [Hin Hout].
  split; intros H; [apply Hin | apply Hout]; lia.
Qed.

Lemma select_table_takes_fifth_witness :
  exists t,
    nth_error (Soup.find_all "table" six_tables) 4 = Some t /\
    App.select_table six_tables = Ok t.
Proof.
  apply (select_table_takes_fifth six_tables). simpl. lia.
Defined.

(** C2, as stated, fails: of six tables the code takes the one at index
    4, not the sixth at index 5. *)
Lemma select_table_is_not_sixth :
  App.select_table six_tables = Ok (table_n "t4") /\
  Http.index (Soup.find_all "table" six_tables) 5 = Ok (table_n "t5") /\
  App.select_table six_tables
  <> Http.index (Soup.find_all "table" six_tables) 5.
Proof.
  split; [reflexivity|]. split; [reflexivity|]. discriminate.
Qed.

(** ** Record building *)

Lemma item_or_empty_nth (l : list string) (i : nat) :
  Scraper.item_or_empty l i = Ok (nth i l "").
Proof.
  unfold Scraper.item_or_empty.
  destruct (i <? length l) eqn:E.
  - apply Nat.ltb_lt in E.
    destruct (index_cases l i) as [Hin _].
    destruct (Hin E) as (a & Ha & ->).
    now rewrite (nth_error_nth l i "" Ha).
  - apply Nat.ltb_ge in E. now rewrite nth_overflow.
Qed.

Lemma rows_loop_map (ds hs ts ws us : list string) (range : list nat) :
  forall data,
    Scraper.rows_loop ds hs ts ws us range data
    = Ok (data ++ map (row_at ds hs ts ws us) range).
Proof.
  induction range as [|i rest IH]; intros data; simpl.
  - now rewrite app_nil_r.
  - rewrite !item_or_empty_nth. cbn [bind]. rewrite IH.
    now rewrite <- app_assoc.
Qed.

(** The export never raises: one row per date, the other columns filled
    with the empty string where they are short and cut where they are
    long. *)
Lemma save_forecast_to_csv_rows (ds hs ts ws us : list string) :
  exists rows,
    Scraper.save_forecast_to_csv ds hs ts ws us = Ok rows /\
    length rows = length ds /\
    forall i, i < length ds ->
      nth_error rows i = Some (row_at ds hs ts ws us i).
Proof.
  exists (map (row_at ds hs ts ws us) (seq 0 (length ds))).
  unfold Scraper.save_forecast_to_csv. rewrite rows_loop_map. simpl.
  split; [reflexivity|]. split.
  - now rewrite length_map, length_seq.
  - intros i Hi. rewrite nth_error_map.
    rewrite nth_error_seq. apply Nat.ltb_lt in Hi. now rewrite Hi.
Qed.

(** C4, as the code has it: on arrays of different lengths the frame
    construction of [app.py] raises pandas' [ValueError] (there is no
    [LayoutError]), on arrays of equal length it yields one record per
    display date; [save_forecast_to_csv] itself never raises, it fills
    what is missing with the empty string and drops what is beyond the
    dates. *)
Theorem misaligned_arrays_value_error (formatted ts ws us : list string) :
  (aligned formatted ts ws us = false ->
   App.build_records formatted ts ws us
   = Raise (ValueError "All arrays must be of the same length")) /\
  (aligned formatted ts ws us = true ->
   exists rows,
     App.build_records formatted ts ws us = Ok rows /\
     length rows = length formatted /\
     forall i, i < length formatted ->
       nth_error rows i
       = Some (Scraper.CsvRow (nth i formatted "")
                 (App.hour_column (nth i formatted ""))
                 (nth i ts "") (nth i ws "") (nth i us ""))) /\
  (forall hs, exists rows,
     Scraper.save_forecast_to_csv formatted hs ts ws us = Ok rows /\
     length rows = length formatted /\
     forall i, i < length formatted ->
       nth_error rows i
       = Some (Scraper.CsvRow (nth i formatted "") (nth i hs "")
                 (nth i ts "") (nth i ws "") (nth i us ""))).
Proof.
  split; [|split].
  - intros H. unfold App.build_records, App.DataFrame.
    unfold aligned in H. now rewrite H.
  - intros H. unfold App.build_records, App.DataFrame.
    unfold aligned in H. rewrite H. cbn [bind App.col_date
      App.col_temperature App.col_wind App.col_humidity].
    destruct (save_forecast_to_csv_rows formatted
                (map App.hour_column formatted) ts ws us)
      as (rows & Hr & Hlen & Hrow).
    exists rows. split; [exact Hr|]. split; [exact Hlen|].
    intros i Hi. rewrite (Hrow i Hi). unfold row_at. f_equal. f_equal.
    change "" with (App.hour_column "") at 1.
    apply map_nth.
  - intros hs. apply save_forecast_to_csv_rows.
Qed.

Lemma misaligned_arrays_value_error_witness :
  App.build_records ["5/10, 22:00"; "5/10, 23:00"] ["59"] ["5"; "6"]
    ["40"; "41"]
  = Raise (ValueError "All arrays must be of the same length") /\
  exists rows,
    App.build_records ["5/10, 22:00"] ["59"] ["5"] ["40"] = Ok rows /\
    length rows = 1.
Proof.
  split.
  - apply (misaligned_arrays_value_error
             ["5/10, 22:00"; "5/10, 23:00"] ["59"] ["5"; "6"] ["40"; "41"]).
    reflexivity.
  - destruct (proj1 (proj2 (misaligned_arrays_value_error
                              ["5/10, 22:00"] ["59"] ["5"] ["40"]))
                eq_refl) as (rows & Hr & Hlen & _).
    exists rows. split; [exact Hr | exact Hlen].
Defined.

(** C4, as stated, fails: with one temperature for two dates the frame
    construction raises [ValueError], not [LayoutError], and the export
    called on the same lists pads the second row instead of raising. *)
Lemma misaligned_arrays_no_layout_error :
  ~ raises_class "LayoutError"
      (App.build_records ["5/10, 22:00"; "5/10, 23:00"] ["59"] ["5"; "6"]
         ["40"; "41"]) /\
  Scraper.save_forecast_to_csv ["5/10, 22:00"; "5/10, 23:00"]
    ["22:00"; "23:00"] ["59"] ["5"; "6"] ["40"; "41"]
  = Ok [Scraper.CsvRow "5/10, 22:00" "22:00" "59" "5" "40";
        Scraper.CsvRow "5/10, 23:00" "23:00" "" "6" "41"] /\
  ~ raises_class "LayoutError"
      (Scraper.save_forecast_to_csv ["5/10, 22:00"; "5/10, 23:00"]
         ["22:00"; "23:00"] ["59"] ["5"; "6"] ["40"; "41"]).
Proof.
  split; [|split].
  - intros (e & He & Hc). cbv in He. injection He as <-. discriminate.
  - reflexivity.
  - intros (e & He & _). discriminate.
Qed.

(** ** Current conditions *)

Lemma find_none_class (cls : string) (soup : Soup.soup) :
  (forall n, In n (Soup.all_nodes soup) -> Soup.has_class cls n = false) ->
  Soup.find_class cls soup = None.
Proof.
  intros H. unfold Soup.find_class.
  destruct (find (Soup.has_class cls) (Soup.all_nodes soup)) as [n|] eqn:E;
    [|reflexivity].
  apply find_some in E. destruct E as [Hin Hc].
  rewrite (H n Hin) in Hc. discriminate.
Qed.

Lemma detail_row_humidity (st : string * string) (row : Soup.node) :
  row_names "Humidity" row = false ->
  fst (Scraper.detail_row st row) = fst st.
Proof.
  unfold row_names, Scraper.detail_row. destruct st as [h w].
  destruct (Soup.tag_find_all "td" row) as [|c0 [|c1 [|c2 l]]];
    try reflexivity.
  intros ->. simpl.
  now destruct (Text.contains "Wind" (Soup.get_text_strip c0)).
Qed.

Lemma detail_row_wind (st : string * string) (row : Soup.node) :
  row_names "Wind" row = false ->
  snd (Scraper.detail_row st row) = snd st.
Proof.
  unfold row_names, Scraper.detail_row. destruct st as [h w].
  destruct (Soup.tag_find_all "td" row) as [|c0 [|c1 [|c2 l]]];
    try reflexivity.
  intros ->. simpl.
  now destruct (Text.contains "Humidity" (Soup.get_text_strip c0)).
Qed.

Lemma detail_rows_humidity (rows : list Soup.node) :
  forall st,
    (forall row, In row rows -> row_names "Humidity" row = false) ->
    fst (fold_left Scraper.detail_row rows st) = fst st.
Proof.
  induction rows as [|row rest IH]; intros st H; [reflexivity|].
  simpl. rewrite IH.
  - apply detail_row_humidity. apply H. now left.
  - intros r Hr. apply H. now right.
Qed.

Lemma detail_rows_wind (rows : list Soup.node) :
  forall st,
    (forall row, In row rows -> row_names "Wind" row = false) ->
    snd (fold_left Scraper.detail_row rows st) = snd st.
Proof.
  induction rows as [|row rest IH]; intros st H; [reflexivity|].
  simpl. rewrite IH.
  - apply detail_row_wind. apply H. now left.
  - intros r Hr. apply H. now right.
Qed.

(** Once a page is received the scraper returns, with these fields. *)
Lemma current_weather_of_response (requests_get : Http.client)
    (url : string) (resp : Http.response) :
  requests_get url = Ok resp ->
  let soup := Http.content resp in
  let st := fold_left Scraper.detail_row
              (Soup.select "current_conditions_detail" "tr" soup)
              ("N/A", "N/A") in
  Scraper.get_weather_data_html_weather_gov requests_get url
  = Ok (Scraper.CurrentWeather
          match Soup.find_class "myforecast-current-lrg" soup with
          | Some t => Text.strip (Soup.text t)
          | None => "N/A"
          end
          (fst st) (snd st)
          match Soup.find_class "myforecast-current" soup with
          | Some c => Text.strip (Soup.text c)
          | None => "N/A"
          end).
Proof.
  intros H soup st. unfold Scraper.get_weather_data_html_weather_gov.
  rewrite H. cbn [bind]. fold soup. fold st. now destruct st.
Qed.

(** C6: on every fetched page the scraper returns; a field whose marker
    is missing is "N/A" (no tag of the class for temperature and
    conditions, no two-cell row naming "Humidity" or "Wind" in the
    details region); a present temperature tag gives its stripped text,
    unparsed; the page with temperature text "59" and no conditions
    marker gives temperature "59" and conditions "N/A". *)
Theorem missing_markers_give_na (requests_get : Http.client)
    (url : string) (resp : Http.response) :
  requests_get url = Ok resp ->
  let soup := Http.content resp in
  let rows := Soup.select "current_conditions_detail" "tr" soup in
  exists cw,
    Scraper.get_weather_data_html_weather_gov requests_get url = Ok cw /\
    ((forall n, In n (Soup.all_nodes soup) ->
                Soup.has_class "myforecast-current-lrg" n = false) ->
     Scraper.temperature cw = "N/A") /\
    (forall t, Soup.find_class "myforecast-current-lrg" soup = Some t ->
               Scraper.temperature cw = Text.strip (Soup.text t)) /\
    ((forall n, In n (Soup.all_nodes soup) ->
                Soup.has_class "myforecast-current" n = false) ->
     Scraper.conditions cw = "N/A") /\
    ((forall row, In row rows -> row_names "Humidity" row = false) ->
     Scraper.humidity cw = "N/A") /\
    ((forall row, In row rows -> row_names "Wind" row = false) ->
     Scraper.wind_speed cw = "N/A") /\
    Scraper.get_weather_data_html_weather_gov
      (serve (Http.Response 200 page_59 (Raise (ValueError "not JSON")))) url
    = Ok (Scraper.CurrentWeather "59" "N/A" "N/A" "N/A").
Proof.
  intros H soup rows.
  eexists. split; [apply (current_weather_of_response _ _ _ H)|].
  fold soup. fold rows. cbn [Scraper.temperature Scraper.conditions
    Scraper.humidity Scraper.wind_speed].
  repeat split.
  - intros Hno. now rewrite (find_none_class _ _ Hno).
  - intros t Ht. now rewrite Ht.
  - intros Hno. now rewrite (find_none_class _ _ Hno).
  - intros Hno. now rewrite detail_rows_humidity.
  - intros Hno. now rewrite detail_rows_wind.
Qed.

Lemma missing_markers_give_na_witness :
  exists cw,
    Scraper.get_weather_data_html_weather_gov
      (serve (Http.Response 200 page_59 (Raise (ValueError "not JSON"))))
      "https://forecast.weather.gov/MapClick.php?lat=40.76&lon=-111.89"
    = Ok cw /\
    Scraper.temperature cw = "59" /\ Scraper.conditions cw = "N/A".
Proof.
  destruct (missing_markers_give_na
              (serve (Http.Response 200 page_59
                        (Raise (ValueError "not JSON"))))
              "https://forecast.weather.gov/MapClick.php?lat=40.76&lon=-111.89"
              _ eq_refl)
    as (cw & Hcw & _ & Ht & Hc & _).
  exists cw. split; [exact Hcw|]. split.
  - apply (Ht (Soup.Tag "p" None ["myforecast-current-lrg"]
                 [Soup.NavigableString "59"])).
    reflexivity.
  - apply Hc. intros n Hn. simpl in Hn.
    repeat (destruct Hn as [<-|Hn]; [reflexivity|]). destruct Hn.
Defined.

(** C7, evaluated on the code: a 404 response with an error page is
    scraped like any other and the call returns four "N/A" where the
    claim expects an error; the status is never read, so the result is
    the one a 200 response with the same body gives; only a failed
    transport raises. *)
Theorem status_is_not_checked :
  Scraper.get_weather_data_html_weather_gov
    (serve (Http.Response 404
              [Soup.Tag "h1" None [] [Soup.NavigableString "Not Found"]]
              (Raise (ValueError "not JSON"))))
    "https://forecast.weather.gov/MapClick.php?lat=0&lon=0"
  = Ok (Scraper.CurrentWeather "N/A" "N/A" "N/A" "N/A") /\
  (forall url status soup js,
     Scraper.get_weather_data_html_weather_gov
       (serve (Http.Response status soup js)) url
     = Scraper.get_weather_data_html_weather_gov
         (serve (Http.Response 200 soup js)) url) /\
  (forall url status soup js,
     raises (Scraper.get_weather_data_html_weather_gov
               (serve (Http.Response status soup js)) url) = false) /\
  (forall url e,
     Scraper.get_weather_data_html_weather_gov (fun _ => Raise e) url
     = Raise e).
Proof.
  split; [reflexivity|]. split; [reflexivity|]. split; [|reflexivity].
  intros url status soup js.
  now rewrite (current_weather_of_response
                 (serve (Http.Response status soup js)) url _ eq_refl).
Qed.

(** ** Geocoding *)

(** C8: when the lookup succeeds with an empty candidate list,
    [get_coordinates] raises the not-found error, an [Exception] whose
    text names the location; when it succeeds with at least one
    candidate, the [lat] and [lon] of the first are returned and nothing
    is raised.  The not-found error differs from the one raised on a
    failed status. *)
Theorem get_coordinates_first_candidate (requests_get : Http.client)
    (location : string) (resp : Http.response) :
  requests_get (Scraper.search_url location) = Ok resp ->
  Http.status_code resp = 200%Z ->
  (Http.json resp = Ok [] ->
   Scraper.get_coordinates requests_get location
   = Raise (Exception
       ("Error getting coordinates: No coordinates found for location: "
          ++ location)%string)) /\
  (forall first others lat lon,
     Http.json resp = Ok (first :: others) ->
     Http.getitem first "lat" = Ok lat ->
     Http.getitem first "lon" = Ok lon ->
     Scraper.get_coordinates requests_get location = Ok (lat, lon)) /\
  (forall status,
     Exception
       ("Error getting coordinates: No coordinates found for location: "
          ++ location)%string
     <> Exception
          ("Error getting coordinates: "
             ++ "Geocoding API request failed with status code: "
             ++ Text.str_int status)%string).
Proof.
  intros Hget Hstatus. split; [|split].
  - intros Hj. unfold Scraper.get_coordinates.
    rewrite Hget. cbn [bind]. rewrite Hstatus. simpl negb. cbv iota.
    rewrite Hj. reflexivity.
  - intros first others lat lon Hj Hlat Hlon.
    unfold Scraper.get_coordinates.
    rewrite Hget. cbn [bind]. rewrite Hstatus. simpl negb. cbv iota.
    rewrite Hj. cbn [bind]. unfold Http.index. simpl nth_error.
    cbn [bind]. rewrite Hlat, Hlon. reflexivity.
  - intros status H. injection H as H. discriminate.
Qed.

Lemma get_coordinates_first_candidate_witness :
  Scraper.get_coordinates
    (serve (Http.Response 200 [] (Ok []))) "Salt Lake City"
  = Raise (Exception
      "Error getting coordinates: No coordinates found for location: Salt Lake City")
  /\
  Scraper.get_coordinates
    (serve (Http.Response 200 []
              (Ok [[("lat", "40.76"); ("lon", "-111.89")];
                   [("lat", "0"); ("lon", "0")]])))
    "Salt Lake City"
  = Ok ("40.76", "-111.89").
Proof.
  split.
  - apply (get_coordinates_first_candidate
             (serve (Http.Response 200 [] (Ok []))) "Salt Lake City"
             _ eq_refl eq_refl).
    reflexivity.
  - apply (proj1 (proj2 (get_coordinates_first_candidate
             (serve (Http.Response 200 []
                       (Ok [[("lat", "40.76"); ("lon", "-111.89")];
                            [("lat", "0"); ("lon", "0")]])))
             "Salt Lake City" _ eq_refl eq_refl))
             [("lat", "40.76"); ("lon", "-111.89")]
             [[("lat", "0"); ("lon", "0")]]);
      reflexivity.
Defined.

(** * Further properties of the scripts and the scrapers *)

(** ** The row walk *)

Lemma walk_from (rows : list Soup.node) :
  forall acc,
    fold_left Walk.row_step rows acc
    = Walk.Accumulators
        (Walk.all_dates acc ++ flat_map (Walk.gives Walk.is_date) rows)
        (Walk.all_hours acc ++ flat_map (Walk.gives Walk.is_hour) rows)
        (Walk.temp_values acc
           ++ flat_map (Walk.gives Walk.is_temperature) rows)
        (Walk.wind_values acc ++ flat_map (Walk.gives Walk.is_wind) rows)
        (Walk.humidity_values acc
           ++ flat_map (Walk.gives Walk.is_humidity) rows).
Proof.
  induction rows as [|row rest IH]; intros acc.
  - simpl. rewrite !app_nil_r. now destruct acc.
  - simpl fold_left. rewrite IH. unfold Walk.row_step, Walk.gives.
    cbn [Walk.all_dates Walk.all_hours Walk.temp_values Walk.wind_values
         Walk.humidity_values flat_map].
    f_equal;
      match goal with
      | |- context [if ?t then _ else _] =>
          destruct t; now rewrite <- ?app_assoc, ?app_nil_r
      end.
Qed.

(** Each of the five lists is, in row order, the non-empty cell texts of
    the rows that carry its label; rows with another label, or with no
    cell at all, add nothing; so the walk of two runs of rows is the walk
    of the first followed by that of the second. *)
Theorem walk_concatenates_labelled_rows (rows : list Soup.node) :
  Walk.walk rows
  = Walk.Accumulators
      (flat_map (Walk.gives Walk.is_date) rows)
      (flat_map (Walk.gives Walk.is_hour) rows)
      (flat_map (Walk.gives Walk.is_temperature) rows)
      (flat_map (Walk.gives Walk.is_wind) rows)
      (flat_map (Walk.gives Walk.is_humidity) rows) /\
  forall more,
    Walk.walk (rows ++ more)
    = Walk.Accumulators
        (Walk.all_dates (Walk.walk rows)
           ++ Walk.all_dates (Walk.walk more))
        (Walk.all_hours (Walk.walk rows)
           ++ Walk.all_hours (Walk.walk more))
        (Walk.temp_values (Walk.walk rows)
           ++ Walk.temp_values (Walk.walk more))
        (Walk.wind_values (Walk.walk rows)
           ++ Walk.wind_values (Walk.walk more))
        (Walk.humidity_values (Walk.walk rows)
           ++ Walk.humidity_values (Walk.walk more)).
Proof.
  assert (W : forall l, Walk.walk l
    = Walk.Accumulators
        (flat_map (Walk.gives Walk.is_date) l)
        (flat_map (Walk.gives Walk.is_hour) l)
        (flat_map (Walk.gives Walk.is_temperature) l)
        (flat_map (Walk.gives Walk.is_wind) l)
        (flat_map (Walk.gives Walk.is_humidity) l)).
  { intros l. unfold Walk.walk. now rewrite walk_from. }
  split; [apply W|].
  intros more. rewrite !W.
  cbn [Walk.all_dates Walk.all_hours Walk.temp_values Walk.wind_values
       Walk.humidity_values].
  now rewrite !flat_map_app.
Qed.

(** The five label tests exclude one another: although the loop body is
    five separate [if]s, a row feeds at most one list. *)
Theorem row_matches_at_most_one_label (row : Soup.node) :
  let cells := Walk.cells_of row in
  Nat.b2n (Walk.is_date cells) + Nat.b2n (Walk.is_hour cells)
  + Nat.b2n (Walk.is_temperature cells) + Nat.b2n (Walk.is_wind cells)
  + Nat.b2n (Walk.is_humidity cells) <= 1.
Proof.
  intros cells.
  unfold Walk.is_date, Walk.is_hour, Walk.is_temperature, Walk.is_wind,
    Walk.is_humidity, Walk.label_is.
  destruct cells as [|c _]; [simpl; lia|].
  generalize (Soup.get_text_strip c). intros l.
  destruct (String.eqb_spec l "Date") as [->|_]; [vm_compute; lia|].
  destruct (String.eqb_spec l "Temperature (°F)") as [->|_];
    [vm_compute; lia|].
  destruct (String.eqb_spec l "Surface Wind (mph)") as [->|_];
    [vm_compute; lia|].
  destruct (String.eqb_spec l "Relative Humidity (%)") as [->|_];
    [vm_compute; lia|].
  destruct (String.prefix "Hour (" l); simpl; lia.
Qed.

Lemma values_of_nonempty (cells : list Soup.node) :
  Forall (fun s => s <> "") (Walk.values_of cells).
Proof.
  apply Forall_forall. intros s Hs. unfold Walk.values_of in Hs.
  apply filter_In in Hs. destruct Hs as [_ Hs].
  intros ->. discriminate.
Qed.

Lemma gives_nonempty (test : list Soup.node -> bool)
    (rows : list Soup.node) :
  Forall (fun s => s <> "") (flat_map (Walk.gives test) rows).
Proof.
  apply Forall_flat_map. apply Forall_forall. intros row _.
  unfold Walk.gives. destruct (test (Walk.cells_of row)).
  - apply values_of_nonempty.
  - constructor.
Qed.

(** No list ever holds an empty token: blank cells are dropped, so the
    sparse date row contributes only the cells that carry a date. *)
Theorem walk_keeps_no_empty_token (rows : list Soup.node) :
  let acc := Walk.walk rows in
  Forall (fun s => s <> "") (Walk.all_dates acc) /\
  Forall (fun s => s <> "") (Walk.all_hours acc) /\
  Forall (fun s => s <> "") (Walk.temp_values acc) /\
  Forall (fun s => s <> "") (Walk.wind_values acc) /\
  Forall (fun s => s <> "") (Walk.humidity_values acc).
Proof.
  intros acc. subst acc. unfold Walk.walk. rewrite walk_from. simpl.
  repeat split; apply gives_nonempty.
Qed.

(** ** More on the reassembly *)

(** With a block of zero hours every date but the last takes nothing. *)
Lemma trace_loop_zero_block (all_dates all_hours : list string)
    (last_date : string) (Hlast : index_last all_dates = Ok last_date)
    (todo : list string) :
  forall idx tr,
    Reassembly.trace_loop all_dates all_hours 0 todo idx = Ok tr ->
    todo <> [] -> last todo "" = last_date ->
    (forall i, i < length todo - 1 -> nth i todo "" <> last_date) ->
    Reassembly.pairs_of tr
    = map (fun hour => (last_date, hour)) (skipn idx all_hours).
Proof.
  induction todo as [|d rest IH]; intros idx tr H Hne Hl Hdist;
    [congruence|].
  apply trace_loop_cons in H. destruct H as (hs & tl & Hh & Htl & ->).
  destruct rest as [|d' rest'].
  - simpl in Hl. subst d.
    rewrite (hours_of_last _ _ _ _ Hlast) in Hh by reflexivity.
    injection Hh as <-.
    unfold Reassembly.trace_loop in Htl. injection Htl as <-.
    unfold Reassembly.pairs_of, Reassembly.pairs_of_iteration. simpl.
    apply app_nil_r.
  - assert (Hd : d <> last_date) by (apply (Hdist 0); simpl; lia).
    rewrite (hours_of_other _ _ _ _ Hlast) in Hh by exact Hd.
    injection Hh as <-. simpl in Htl. rewrite Nat.add_0_r in Htl.
    unfold Reassembly.pairs_of. simpl flat_map.
    fold (Reassembly.pairs_of tl).
    rewrite (IH idx tl Htl); [reflexivity | discriminate | exact Hl |].
    intros i Hi. apply (Hdist (S i)). simpl in *. lia.
Qed.

(** More dates than hours: the block is [H // D = 0], so, when no
    earlier date equals the last one, every hour is paired with the last
    date and the other dates appear in no pair. *)
Theorem more_dates_than_hours (all_dates all_hours : list string) :
  0 < length all_hours ->
  length all_hours < length all_dates ->
  (forall i, i < length all_dates - 1 ->
             nth i all_dates "" <> last all_dates "") ->
  Reassembly.combine all_dates all_hours
  = Ok (map (fun hour => (last all_dates "", hour)) all_hours).
Proof.
  intros HH HD Hdist.
  assert (HD0 : 0 < length all_dates) by lia.
  pose proof (nonempty_of_length _ HD0) as Hne.
  pose proof (index_last_ok all_dates Hne) as Hl.
  destruct (combine_of_trace all_dates all_hours HD0 HH)
    as (tr & _ & Hloop & Hcomb & _).
  rewrite Nat.div_small in Hloop by exact HD.
  rewrite Hcomb.
  now rewrite (trace_loop_zero_block _ _ _ Hl all_dates 0 tr Hloop Hne
                 eq_refl Hdist).
Qed.

Lemma more_dates_than_hours_witness :
  Reassembly.combine ["5/10"; "5/11"; "5/12"] ["7"; "8"]
  = Ok [("5/12", "7"); ("5/12", "8")].
Proof.
  apply (more_dates_than_hours ["5/10"; "5/11"; "5/12"] ["7"; "8"]).
  - simpl. lia.
  - simpl. lia.
  - intros i Hi. simpl in Hi.
    destruct i as [|[|i]]; simpl; [discriminate | discriminate | lia].
Defined.

(** The block of the last date has [H - block * (D - 1)] hours, never
    fewer than [block], and exactly [block] when [D] divides [H] (no
    earlier date being equal to the last one). *)
Theorem last_block_takes_remainder (all_dates all_hours : list string) :
  0 < length all_dates -> 0 < length all_hours ->
  (forall i, i < length all_dates - 1 ->
             nth i all_dates "" <> last all_dates "") ->
  let D := length all_dates in
  let H := length all_hours in
  let block := H / D in
  exists tr it,
    Reassembly.trace all_dates all_hours = Ok tr /\
    nth_error tr (D - 1) = Some it /\
    length (Reassembly.it_hours it) = H - block * (D - 1) /\
    block <= length (Reassembly.it_hours it) /\
    (H mod D = 0 -> length (Reassembly.it_hours it) = block).
Proof.
  intros HD HH Hdist D H block.
  pose proof (nonempty_of_length _ HD) as Hne.
  pose proof (index_last_ok all_dates Hne) as Hl.
  destruct (combine_of_trace all_dates all_hours HD HH)
    as (tr & Htrace & Hloop & _ & _).
  fold D H block in Hloop.
  assert (Hmul : D * block <= H) by apply Nat.Div0.mul_div_le.
  assert (Hfit : 0 + (D - 1) * block <= H) by (simpl; nia).
  destruct (trace_loop_regular _ _ _ _ Hl all_dates 0 tr Hloop Hne eq_refl
              Hdist Hfit) as (_ & Hlast).
  simpl in Hlast. fold D in Hlast.
  eexists tr, _. split; [exact Htrace|]. split; [exact Hlast|].
  cbn [Reassembly.it_hours]. unfold slice_from. rewrite length_skipn.
  fold H. split; [nia|]. split; [nia|].
  intros Hmod.
  pose proof (Nat.div_mod_eq H D) as E. fold block in E.
  rewrite Hmod in E. nia.
Qed.

Lemma last_block_takes_remainder_witness :
  exists tr it,
    Reassembly.trace scenario_dates scenario_hours = Ok tr /\
    nth_error tr 1 = Some it /\
    length (Reassembly.it_hours it) = 3.
Proof.
  destruct (last_block_takes_remainder scenario_dates scenario_hours)
    as (tr & it & Htr & Hit & Hlen & _).
  - simpl. lia.
  - simpl. lia.
  - intros i Hi. simpl in Hi.
    assert (i = 0) as -> by lia. simpl. discriminate.
  - exists tr, it. split; [exact Htr|]. split; [exact Hit | exact Hlen].
Defined.

(** ** More on the display strings *)

(** Hours 0 to 99 are shown on exactly two characters, so the hours of
    a day give display strings that end in "HH:00". *)
Theorem two_digit_hours (n : nat) :
  n < 100 ->
  String.length (Text.format_02d (Z.of_nat n)) = 2 /\
  (n < 10 ->
   Text.format_02d (Z.of_nat n)
   = ("0" ++ Text.str_int (Z.of_nat n))%string).
Proof.
  intros H.
  do 100 (destruct n as [|n]; [split; [reflexivity | intros; reflexivity || lia]|]).
  lia.
Qed.

Lemma two_digit_hours_witness :
  String.length (Text.format_02d 7) = 2.
Proof. apply (two_digit_hours 7). lia. Defined.

(** ** The chained steps *)




(** ** The hour column of the export *)

Lemma chars_app (s1 s2 : string) :
  Text.chars (s1 ++ s2)%string = Text.chars s1 ++ Text.chars s2.
Proof.
  unfold Text.chars. induction s1 as [|c s1 IH]; simpl; [reflexivity|].
  now rewrite IH.
Qed.

Lemma text_of_chars (s : string) : Text.text_of (Text.chars s) = s.
Proof. apply string_of_list_ascii_of_string. Qed.

Lemma chars_text_of (l : list ascii) : Text.chars (Text.text_of l) = l.
Proof. apply list_ascii_of_string_of_list_ascii. Qed.

Lemma after_comma_first (l1 l2 : list ascii) :
  Forall (fun c => Ascii.eqb c "," = false) l1 ->
  App.after_comma (l1 ++ ","%char :: l2) = Some l2.
Proof.
  induction 1 as [|c l Hc _ IH]; simpl; [reflexivity|].
  now rewrite Hc.
Qed.

Lemma until_comma_none (l : list ascii) :
  Forall (fun c => Ascii.eqb c "," = false) l ->
  App.until_comma l = l.
Proof.
  induction 1 as [|c l Hc _ IH]; simpl; [reflexivity|].
  now rewrite Hc, IH.
Qed.

(** A character of a printed integer, a digit or the sign, is plain. *)
Lemma digits_chars (u : Decimal.uint) :
  Forall (fun c => plain_byte c = true)
    (Text.chars (NilEmpty.string_of_uint u)).
Proof.
  unfold Text.chars.
  induction u as [|u IH|u IH|u IH|u IH|u IH|u IH|u IH|u IH|u IH|u IH];
    cbn [NilEmpty.string_of_uint list_ascii_of_string];
    constructor; solve [exact IH | reflexivity].
Qed.

Lemma decimal_chars (u : Decimal.uint) :
  Forall (fun c => plain_byte c = true)
    (Text.chars (NilZero.string_of_uint u)).
Proof.
  destruct u; try apply digits_chars.
  constructor; [reflexivity | constructor].
Qed.

Lemma format_02d_chars (z : Z) :
  Forall (fun c => plain_byte c = true) (Text.chars (Text.format_02d z)).
Proof.
  assert (S : Forall (fun c => plain_byte c = true)
                (Text.chars (Text.str_int z))).
  { unfold Text.str_int, Text.decimal. destruct z.
    - apply decimal_chars.
    - apply decimal_chars.
    - rewrite chars_app. apply Forall_app. split.
      + constructor; [reflexivity | constructor].
      + apply decimal_chars. }
  unfold Text.format_02d.
  destruct (String.length (Text.str_int z) <? 2); [|exact S].
  rewrite chars_app. apply Forall_app. split; [|exact S].
  constructor; [reflexivity | constructor].
Qed.

Lemma plain_byte_facts (c : ascii) :
  plain_byte c = true ->
  (Text.byte c <? 128)%N = true /\
  Text.is_space (Text.byte c) = false /\
  Ascii.eqb c "," = false.
Proof.
  unfold plain_byte. intros H.
  apply andb_true_iff in H. destruct H as [H Hc].
  apply andb_true_iff in H. destruct H as [Ha Hs].
  apply negb_true_iff in Hs. apply negb_true_iff in Hc. auto.
Qed.

(** Stripping stops at a plain first byte, from either end. *)
Lemma lstrip_head (c : ascii) (t : list ascii) :
  plain_byte c = true -> Text.lstrip (c :: t) = c :: t.
Proof.
  intros H. apply plain_byte_facts in H. destruct H as (Ha & Hs & _).
  unfold Text.lstrip. cbn [length Text.lstrip_fuel Text.decode1].
  now rewrite Ha, Hs.
Qed.

Lemma rstrip_head (c : ascii) (t : list ascii) :
  plain_byte c = true -> Text.rstrip_reversed (c :: t) = c :: t.
Proof.
  intros H. apply plain_byte_facts in H. destruct H as (Ha & Hs & _).
  assert (E : Text.decode_last (c :: t) = Some (Text.byte c, t)).
  { unfold Text.decode_last. cbn [firstn rev app Text.decode1].
    rewrite Ha. reflexivity. }
  unfold Text.rstrip_reversed. cbn [length Text.rstrip_fuel].
  now rewrite E, Hs.
Qed.

Lemma lstrip_plain (l : list ascii) (t : list ascii) (c : ascii) :
  Forall (fun c => plain_byte c = true) l ->
  plain_byte c = true ->
  Text.lstrip (l ++ c :: t) = l ++ c :: t.
Proof.
  intros Hl Hc. destruct Hl as [|a l Ha _]; simpl app.
  - now apply lstrip_head.
  - now apply lstrip_head.
Qed.

Lemma strip_unchanged (l : list ascii) :
  Text.lstrip l = l -> Text.rstrip_reversed (rev l) = rev l ->
  Text.strip (Text.text_of l) = Text.text_of l.
Proof.
  intros H1 H2. unfold Text.strip.
  now rewrite chars_text_of, H1, H2, rev_involutive.
Qed.

Lemma strip_leading_space (l : list ascii) :
  Text.strip (Text.text_of (" "%char :: l)) = Text.strip (Text.text_of l).
Proof.
  unfold Text.strip. now rewrite !chars_text_of.
Qed.

Lemma hour_column_of_display (date hh : string) :
  Forall (fun c => Ascii.eqb c "," = false) (Text.chars date) ->
  Forall (fun c => plain_byte c = true) (Text.chars hh) ->
  App.hour_column (date ++ ", " ++ (hh ++ ":00"))%string
  = (hh ++ ":00")%string.
Proof.
  intros Hd Hh. unfold App.hour_column.
  rewrite chars_app.
  change (Text.chars (", " ++ (hh ++ ":00"))%string)
    with (","%char :: " "%char :: Text.chars (hh ++ ":00")%string).
  rewrite (after_comma_first _ _ Hd).
  rewrite until_comma_none.
  2:{ constructor; [reflexivity|]. rewrite chars_app.
      apply Forall_app. split.
      - eapply Forall_impl; [|exact Hh].
        intros c Hc. now apply plain_byte_facts in Hc.
      - repeat constructor. }
  rewrite strip_leading_space, strip_unchanged.
  - apply text_of_chars.
  - rewrite chars_app.
    exact (lstrip_plain (Text.chars hh) ["0"; "0"]%char ":"%char Hh
             eq_refl).
  - rewrite chars_app, rev_app_distr.
    exact (rstrip_head "0"%char _ eq_refl).
Qed.

(** The export derives its Hour column from the display string: for a
    date token without a comma the column is the zero-padded hour, and
    date, ", " and hour column rebuild the display string.  A date token
    that itself holds a comma shifts the split: the column then shows a
    piece of the date. *)
Theorem hour_column_is_the_padded_hour (date hour s : string) :
  Forall (fun c => Ascii.eqb c "," = false) (Text.chars date) ->
  Format.format_pair (date, hour) = Ok s ->
  (exists n, Text.int hour = Ok n /\
             App.hour_column s = (Text.format_02d n ++ ":00")%string) /\
  s = (date ++ ", " ++ App.hour_column s)%string /\
  (Format.format_pair ("Sat, 5/10", "7") = Ok "Sat, 5/10, 07:00" /\
   App.hour_column "Sat, 5/10, 07:00" = "5/10").
Proof.
  intros Hd Hs.
  destruct (int_cases hour) as [(n & Hn)|(msg & Hn)].
  - destruct (format_pair_with_ok Format.datetime date hour n Hn)
      as (ds & Hds & Hfp).
    rewrite date_str_of_module in Hds. injection Hds as <-.
    unfold Format.format_pair in Hs. rewrite Hfp in Hs.
    injection Hs as <-.
    pose proof (hour_column_of_display date _ Hd (format_02d_chars n))
      as E.
    change (", " ++ (Text.format_02d n ++ ":00"))%string
      with (String "," (String " " (Text.format_02d n ++ ":00")))
      in E.
    rewrite E.
    split; [exists n; now split|]. split; [reflexivity|].
    split; reflexivity.
  - unfold Format.format_pair in Hs.
    rewrite (format_pair_with_raise _ date hour _ Hn) in Hs. discriminate.
Qed.

Lemma hour_column_is_the_padded_hour_witness :
  App.hour_column "5/10, 07:00" = "07:00".
Proof.
  destruct (hour_column_is_the_padded_hour "5/10" "7" "5/10, 07:00")
    as ((n & Hn & Hc) & _).
  - repeat constructor.
  - reflexivity.
  - injection Hn as <-. exact Hc.
Defined.

(** ** More on [get_coordinates] *)

(** Whatever the client answers, [get_coordinates] returns or raises a
    plain [Exception] whose text starts with "Error getting coordinates: ":
    a failed transport, an undecodable body and a missing key all come
    out in that one form, with the text of the original error. *)
Theorem get_coordinates_wraps_every_failure (requests_get : Http.client)
    (location : string) :
  ((exists coords,
      Scraper.get_coordinates requests_get location = Ok coords) \/
   (exists msg,
      Scraper.get_coordinates requests_get location
      = Raise (Exception ("Error getting coordinates: " ++ msg)%string)))
  /\
  (forall e,
     requests_get (Scraper.search_url location) = Raise e ->
     Scraper.get_coordinates requests_get location
     = Raise (Exception
         ("Error getting coordinates: " ++ str_exn e)%string)) /\
  (forall soup e,
     requests_get (Scraper.search_url location)
     = Ok (Http.Response 200 soup (Raise e)) ->
     Scraper.get_coordinates requests_get location
     = Raise (Exception
         ("Error getting coordinates: " ++ str_exn e)%string)).
Proof.
  split; [|split].
  - unfold Scraper.get_coordinates, try_except.
    match goal with
    | |- context [match ?b with Ok _ => _ | Raise _ => _ end] =>
        destruct b as [coords|e]
    end.
    + left. now exists coords.
    + right. now exists (str_exn e).
  - intros e H. unfold Scraper.get_coordinates. now rewrite H.
  - intros soup e H. unfold Scraper.get_coordinates. now rewrite H.
Qed.

Lemma get_coordinates_wraps_every_failure_witness :
  Scraper.get_coordinates
    (fun _ => Raise (RequestException "Connection refused")) "Salt Lake City"
  = Raise (Exception "Error getting coordinates: Connection refused").
Proof.
  apply (proj1 (proj2 (get_coordinates_wraps_every_failure
           (fun _ => Raise (RequestException "Connection refused"))
           "Salt Lake City"))
           (RequestException "Connection refused")).
  reflexivity.
Defined.

(** A status other than 200 is refused before the body is read: the
    error names the status, even when the body lists candidates. *)
Theorem get_coordinates_rejects_other_status (requests_get : Http.client)
    (location : string) (resp : Http.response) :
  requests_get (Scraper.search_url location) = Ok resp ->
  Http.status_code resp <> 200%Z ->
  Scraper.get_coordinates requests_get location
  = Raise (Exception
      ("Error getting coordinates: "
         ++ "Geocoding API request failed with status code: "
         ++ Text.str_int (Http.status_code resp))%string).
Proof.
  intros H Hs. unfold Scraper.get_coordinates. rewrite H. cbn [bind].
  apply Z.eqb_neq in Hs. rewrite Hs. reflexivity.
Qed.

Lemma get_coordinates_rejects_other_status_witness :
  Scraper.get_coordinates
    (serve (Http.Response 503 []
              (Ok [[("lat", "40.76"); ("lon", "-111.89")]])))
    "Salt Lake City"
  = Raise (Exception
      "Error getting coordinates: Geocoding API request failed with status code: 503").
Proof.
  apply (get_coordinates_rejects_other_status
           (serve (Http.Response 503 []
                     (Ok [[("lat", "40.76"); ("lon", "-111.89")]])))
           "Salt Lake City" _ eq_refl).
  discriminate.
Defined.

Lemma get_coordinates_of_first (requests_get : Http.client)
    (location : string) (resp : Http.response)
    (first : Http.candidate) (others : list Http.candidate) :
  requests_get (Scraper.search_url location) = Ok resp ->
  Http.status_code resp = 200%Z ->
  Http.json resp = Ok (first :: others) ->
  Scraper.get_coordinates requests_get location
  = try_except
      (lat <- Http.getitem first "lat" ;;
       lon <- Http.getitem first "lon" ;;
       Ok (lat, lon))
      (fun e =>
         Raise (Exception
           ("Error getting coordinates: " ++ str_exn e)%string)).
Proof.
  intros H Hs Hj. unfold Scraper.get_coordinates.
  rewrite H. cbn [bind]. rewrite Hs. simpl negb. cbv iota.
  rewrite Hj. reflexivity.
Qed.

Lemma getitem_missing (obj : Http.candidate) (key : string) :
  (forall v, ~ In (key, v) obj) ->
  Http.getitem obj key = Raise (KeyError ("'" ++ key ++ "'")%string).
Proof.
  induction obj as [|[k v] rest IH]; intros H; [reflexivity|].
  simpl. destruct (String.eqb_spec k key) as [->|_].
  - exfalso. apply (H v). now left.
  - apply IH. intros v' Hv. apply (H v'). now right.
Qed.

(** Only the first candidate counts: the result is the same whatever
    the other candidates are, and a first candidate without "lat" (or
    without "lon") is an error naming the key even when a later
    candidate has both. *)
Theorem get_coordinates_reads_only_first (requests_get : Http.client)
    (location : string) (resp : Http.response)
    (first : Http.candidate) (others : list Http.candidate) :
  requests_get (Scraper.search_url location) = Ok resp ->
  Http.status_code resp = 200%Z ->
  Http.json resp = Ok (first :: others) ->
  Scraper.get_coordinates requests_get location
  = Scraper.get_coordinates
      (serve (Http.Response 200 [] (Ok [first]))) location /\
  ((forall v, ~ In ("lat", v) first) ->
   Scraper.get_coordinates requests_get location
   = Raise (Exception "Error getting coordinates: 'lat'")) /\
  (forall lat,
     Http.getitem first "lat" = Ok lat ->
     (forall v, ~ In ("lon", v) first) ->
     Scraper.get_coordinates requests_get location
     = Raise (Exception "Error getting coordinates: 'lon'")).
Proof.
  intros H Hs Hj.
  rewrite (get_coordinates_of_first _ _ _ _ _ H Hs Hj).
  split; [|split].
  - symmetry.
    apply (get_coordinates_of_first _ location
             (Http.Response 200 [] (Ok [first])) first []);
      reflexivity.
  - intros Hl. now rewrite (getitem_missing _ _ Hl).
  - intros lat Hl Ho. now rewrite Hl, (getitem_missing _ _ Ho).
Qed.

Lemma get_coordinates_reads_only_first_witness :
  Scraper.get_coordinates
    (serve (Http.Response 200 []
              (Ok [[("lon", "-111.89")];
                   [("lat", "40.76"); ("lon", "-111.89")]])))
    "Salt Lake City"
  = Raise (Exception "Error getting coordinates: 'lat'").
Proof.
  apply (get_coordinates_reads_only_first
           (serve (Http.Response 200 []
                     (Ok [[("lon", "-111.89")];
                          [("lat", "40.76"); ("lon", "-111.89")]])))
           "Salt Lake City" _ [("lon", "-111.89")]
           [[("lat", "40.76"); ("lon", "-111.89")]]
           eq_refl eq_refl eq_refl).
  intros v [H|H]; [discriminate | destruct H].
Defined.

Lemma replace_char_chars (a b : ascii) (s : string) :
  Text.chars (Text.replace_char a b s)
  = map (fun c => if Ascii.eqb c a then b else c) (Text.chars s).
Proof. unfold Text.replace_char. apply chars_text_of. Qed.

(** The search URL never holds a space: each one becomes "+".  Nothing
    else is escaped, so a location without spaces is appended as typed,
    and a location with a space and the one with "+" in its place ask
    for the same URL. *)
Theorem search_url_only_replaces_spaces (location : string) :
  ~ In " "%char (Text.chars (Scraper.search_url location)) /\
  (~ In " "%char (Text.chars location) ->
   Scraper.search_url location
   = ("https://nominatim.openstreetmap.org/search?format=json&q="
        ++ location)%string) /\
  Scraper.search_url (Text.replace_char " " "+" location)
  = Scraper.search_url location.
Proof.
  assert (Hrep : forall l : list ascii,
            ~ In " "%char l ->
            map (fun c => if Ascii.eqb c " " then "+"%char else c) l = l).
  { induction l as [|c l IH]; intros Hn; [reflexivity|]. simpl.
    destruct (Ascii.eqb_spec c " ") as [->|_].
    - exfalso. apply Hn. now left.
    - f_equal. apply IH. intros Hin. apply Hn. now right. }
  assert (Hno : forall l : list ascii,
            ~ In " "%char
                (map (fun c => if Ascii.eqb c " " then "+"%char else c) l)).
  { induction l as [|c l IH]; simpl; [tauto|].
    intros [E|E]; [|now apply IH].
    destruct (Ascii.eqb_spec c " ") as [->|Hc]; [discriminate|].
    now apply Hc. }
  split; [|split].
  - unfold Scraper.search_url. rewrite chars_app, replace_char_chars.
    intros Hin. apply in_app_or in Hin. destruct Hin as [Hin|Hin].
    + simpl in Hin.
      repeat (destruct Hin as [Hin|Hin]; [discriminate|]). exact Hin.
    + now apply Hno in Hin.
  - intros Hn. unfold Scraper.search_url. f_equal.
    unfold Text.replace_char. rewrite (Hrep _ Hn). apply text_of_chars.
  - unfold Scraper.search_url. f_equal.
    unfold Text.replace_char at 1. rewrite replace_char_chars.
    rewrite (Hrep _ (Hno _)). reflexivity.
Qed.

Lemma search_url_only_replaces_spaces_witness :
  Scraper.search_url "Ogden&format=xml"
  = "https://nominatim.openstreetmap.org/search?format=json&q=Ogden&format=xml".
Proof.
  apply (proj1 (proj2 (search_url_only_replaces_spaces "Ogden&format=xml"))).
  simpl. intros H.
  repeat (destruct H as [H|H]; [discriminate|]). exact H.
Defined.

(** ** [build_weather_gov_url_from_location] *)

(** The forecast URL is built from the [lat] and [lon] of the first
    candidate, pasted as received; when the geocoding fails its error
    comes out unchanged, with no second wrapping. *)
Theorem weather_gov_url_from_first_candidate (requests_get : Http.client)
    (location : string) :
  (forall resp first others lat lon,
     requests_get (Scraper.search_url location) = Ok resp ->
     Http.status_code resp = 200%Z ->
     Http.json resp = Ok (first :: others) ->
     Http.getitem first "lat" = Ok lat ->
     Http.getitem first "lon" = Ok lon ->
     Location.build_weather_gov_url_from_location requests_get location
     = Ok ("https://forecast.weather.gov/MapClick.php?lat=" ++ lat
             ++ "&lon=" ++ lon)%string) /\
  (forall e,
     Scraper.get_coordinates requests_get location = Raise e ->
     Location.build_weather_gov_url_from_location requests_get location
     = Raise e /\
     exists msg,
       e = Exception ("Error getting coordinates: " ++ msg)%string).
Proof.
  split.
  - intros resp first others lat lon H Hs Hj Hlat Hlon.
    unfold Location.build_weather_gov_url_from_location.
    rewrite (get_coordinates_of_first _ _ _ _ _ H Hs Hj), Hlat, Hlon.
    reflexivity.
  - intros e He.
    unfold Location.build_weather_gov_url_from_location.
    rewrite He. split; [reflexivity|].
    revert He. unfold Scraper.get_coordinates, try_except.
    match goal with
    | |- context [match ?b with Ok _ => _ | Raise _ => _ end] =>
        destruct b as [coords|e']
    end; [discriminate|].
    intros [= <-]. now exists (str_exn e').
Qed.

Lemma weather_gov_url_from_first_candidate_witness :
  Location.build_weather_gov_url_from_location
    (serve (Http.Response 200 []
              (Ok [[("lat", "40.76"); ("lon", "-111.89")]])))
    "Salt Lake City"
  = Ok "https://forecast.weather.gov/MapClick.php?lat=40.76&lon=-111.89".
Proof.
  apply (proj1 (weather_gov_url_from_first_candidate
                  (serve (Http.Response 200 []
                            (Ok [[("lat", "40.76"); ("lon", "-111.89")]])))
                  "Salt Lake City")
           (Http.Response 200 []
              (Ok [[("lat", "40.76"); ("lon", "-111.89")]]))
           [("lat", "40.76"); ("lon", "-111.89")] [] "40.76" "-111.89");
    reflexivity.
Defined.

(** ** [get_weather_data_accuweather] *)

(** Argument handling: with neither a URL nor a slug (each [None] or
    empty) the call raises [ValueError] before any request and outside
    the handler, so unwrapped; a URL makes the slug irrelevant; a slug
    alone is appended to the site's address. *)
Theorem accuweather_arguments (requests_get : AccuWeather.client)
    (url city_slug : option string) :
  (AccuWeather.falsy url = true -> AccuWeather.falsy city_slug = true ->
   AccuWeather.get_weather_data_accuweather requests_get url city_slug
   = Raise (ValueError "Must provide either url or city_slug.")) /\
  (forall u, url = Some u -> u <> "" ->
     AccuWeather.get_weather_data_accuweather requests_get url city_slug
     = AccuWeather.get_weather_data_accuweather requests_get url None) /\
  (forall s, AccuWeather.falsy url = true -> city_slug = Some s -> s <> "" ->
     AccuWeather.get_weather_data_accuweather requests_get url city_slug
     = AccuWeather.get_weather_data_accuweather requests_get
         (Some ("https://www.accuweather.com/en/" ++ s)%string) None).
Proof.
  split; [|split].
  - intros Hu Hs. unfold AccuWeather.get_weather_data_accuweather.
    now rewrite Hu, Hs.
  - intros u -> Hu. unfold AccuWeather.get_weather_data_accuweather.
    apply String.eqb_neq in Hu. simpl AccuWeather.falsy. rewrite Hu.
    reflexivity.
  - intros s Hu -> Hs. unfold AccuWeather.get_weather_data_accuweather.
    rewrite Hu. apply String.eqb_neq in Hs.
    simpl AccuWeather.falsy. rewrite Hs. reflexivity.
Qed.

Lemma accuweather_arguments_witness :
  AccuWeather.get_weather_data_accuweather
    (fun _ => AccuWeather.TimedOut) (Some "") None
  = Raise (ValueError "Must provide either url or city_slug.").
Proof.
  apply (accuweather_arguments (fun _ => AccuWeather.TimedOut)
           (Some "") None); reflexivity.
Defined.

(** Failures after the argument check: a timeout gives its own message,
    any other transport error and a status other than 200 are wrapped as
    "Error in get_weather_data_accuweather: ..."; unlike the weather.gov
    scraper this one refuses an error page. *)
Theorem accuweather_failures (requests_get : AccuWeather.client)
    (url : string) :
  url <> "" ->
  (requests_get url = AccuWeather.TimedOut ->
   AccuWeather.get_weather_data_accuweather requests_get (Some url) None
   = Raise (Exception
       "Timeout while fetching weather data from AccuWeather. Please try again later."))
  /\
  (forall e,
     requests_get url = AccuWeather.Failed e ->
     AccuWeather.get_weather_data_accuweather requests_get (Some url) None
     = Raise (Exception
         ("Error in get_weather_data_accuweather: " ++ str_exn e)%string))
  /\
  (forall response,
     requests_get url = AccuWeather.Answered response ->
     Http.status_code response <> 200%Z ->
     AccuWeather.get_weather_data_accuweather requests_get (Some url) None
     = Raise (Exception
         ("Error in get_weather_data_accuweather: "
            ++ "Failed to fetch AccuWeather page: "
            ++ Text.str_int (Http.status_code response))%string)).
Proof.
  intros Hu. apply String.eqb_neq in Hu.
  unfold AccuWeather.get_weather_data_accuweather.
  simpl AccuWeather.falsy. rewrite Hu. simpl.
  split; [|split].
  - now intros ->.
  - now intros e ->.
  - intros response -> Hs. unfold AccuWeather.scrape.
    apply Z.eqb_neq in Hs. now rewrite Hs.
Qed.

Lemma accuweather_failures_witness :
  AccuWeather.get_weather_data_accuweather
    (fun _ => AccuWeather.Answered
                (Http.Response 404 [] (Raise (ValueError "not JSON"))))
    (Some "https://www.accuweather.com/en/us/salt-lake-city") None
  = Raise (Exception
      "Error in get_weather_data_accuweather: Failed to fetch AccuWeather page: 404").
Proof.
  apply (proj2 (proj2 (accuweather_failures
           (fun _ => AccuWeather.Answered
                       (Http.Response 404 []
                          (Raise (ValueError "not JSON"))))
           "https://www.accuweather.com/en/us/salt-lake-city"
           ltac:(discriminate)))
           (Http.Response 404 [] (Raise (ValueError "not JSON")))).
  - reflexivity.
  - discriminate.
Defined.

Lemma find_none_pred {A} (p : A -> bool) (l : list A) :
  (forall a, In a l -> p a = false) -> find p l = None.
Proof.
  intros H. destruct (find p l) as [a|] eqn:E; [|reflexivity].
  apply find_some in E. destruct E as [Hin Hp].
  rewrite (H a Hin) in Hp. discriminate.
Qed.

Lemma accu_items_humidity (items : list Soup.node) :
  forall st,
    (forall item label,
       In item items ->
       find (AccuWeather.is_div "label") (Soup.descendants item)
       = Some label ->
       Text.contains "Humidity" (Soup.text label) = false) ->
    fst (fold_left AccuWeather.detail_item items st) = fst st.
Proof.
  induction items as [|item rest IH]; intros st H; [reflexivity|].
  simpl. rewrite IH.
  - unfold AccuWeather.detail_item. destruct st as [h w].
    destruct (find (AccuWeather.is_div "label") (Soup.descendants item))
      as [label|] eqn:El; [|reflexivity].
    destruct (find (AccuWeather.is_div "value") (Soup.descendants item))
      as [value|]; [|reflexivity].
    simpl. now rewrite (H item label (or_introl eq_refl) El).
  - intros it label Hin. apply H. now right.
Qed.

Lemma accu_items_wind (items : list Soup.node) :
  forall st,
    (forall item label,
       In item items ->
       find (AccuWeather.is_div "label") (Soup.descendants item)
       = Some label ->
       Text.contains "Wind" (Soup.text label) = false) ->
    snd (fold_left AccuWeather.detail_item items st) = snd st.
Proof.
  induction items as [|item rest IH]; intros st H; [reflexivity|].
  simpl. rewrite IH.
  - unfold AccuWeather.detail_item. destruct st as [h w].
    destruct (find (AccuWeather.is_div "label") (Soup.descendants item))
      as [label|] eqn:El; [|reflexivity].
    destruct (find (AccuWeather.is_div "value") (Soup.descendants item))
      as [value|]; [|reflexivity].
    simpl. now rewrite (H item label (or_introl eq_refl) El).
  - intros it label Hin. apply H. now right.
Qed.

(** On a 200 response the call returns; a field whose marker is absent
    is "N/A": no [div] of class "display-temp" or "phrase", no detail
    item whose label names "Humidity" or "Wind". *)
Theorem accuweather_missing_markers (requests_get : AccuWeather.client)
    (url : string) (response : Http.response) :
  url <> "" ->
  requests_get url = AccuWeather.Answered response ->
  Http.status_code response = 200%Z ->
  let nodes := Soup.all_nodes (Http.content response) in
  let details :=
    filter (AccuWeather.is_div "detail-item spaced-content") nodes in
  exists cw,
    AccuWeather.get_weather_data_accuweather requests_get (Some url) None
    = Ok cw /\
    ((forall n, In n nodes -> AccuWeather.is_div "display-temp" n = false) ->
     Scraper.temperature cw = "N/A") /\
    ((forall n, In n nodes -> AccuWeather.is_div "phrase" n = false) ->
     Scraper.conditions cw = "N/A") /\
    ((forall item label,
        In item details ->
        find (AccuWeather.is_div "label") (Soup.descendants item)
        = Some label ->
        Text.contains "Humidity" (Soup.text label) = false) ->
     Scraper.humidity cw = "N/A") /\
    ((forall item label,
        In item details ->
        find (AccuWeather.is_div "label") (Soup.descendants item)
        = Some label ->
        Text.contains "Wind" (Soup.text label) = false) ->
     Scraper.wind_speed cw = "N/A").
Proof.
  intros Hu Hget Hs nodes details. apply String.eqb_neq in Hu.
  unfold AccuWeather.get_weather_data_accuweather.
  simpl AccuWeather.falsy. rewrite Hu. simpl andb. cbv iota.
  simpl AccuWeather.fstr. rewrite Hget.
  unfold AccuWeather.scrape. rewrite Hs. simpl negb. cbv iota.
  fold nodes. fold details.
  destruct (fold_left AccuWeather.detail_item details ("N/A", "N/A"))
    as [h w] eqn:Est.
  eexists. split; [reflexivity|].
  cbn [Scraper.temperature Scraper.conditions Scraper.humidity
       Scraper.wind_speed].
  repeat split.
  - intros Hno. now rewrite (find_none_pred _ _ Hno).
  - intros Hno. now rewrite (find_none_pred _ _ Hno).
  - intros Hno. change h with (fst (h, w)). rewrite <- Est.
    now rewrite accu_items_humidity.
  - intros Hno. change w with (snd (h, w)). rewrite <- Est.
    now rewrite accu_items_wind.
Qed.

Lemma accuweather_missing_markers_witness :
  exists cw,
    AccuWeather.get_weather_data_accuweather
      (fun _ => AccuWeather.Answered
                  (Http.Response 200
                     [Soup.Tag "div" None ["display-temp"]
                        [Soup.NavigableString " 59F "]]
                     (Raise (ValueError "not JSON"))))
      (Some "https://www.accuweather.com/en/us/salt-lake-city") None
    = Ok cw /\ Scraper.conditions cw = "N/A".
Proof.
  destruct (accuweather_missing_markers
              (fun _ => AccuWeather.Answered
                          (Http.Response 200
                             [Soup.Tag "div" None ["display-temp"]
                                [Soup.NavigableString " 59F "]]
                             (Raise (ValueError "not JSON"))))
              "https://www.accuweather.com/en/us/salt-lake-city"
              _ ltac:(discriminate) eq_refl eq_refl)
    as (cw & Hcw & _ & Hc & _).
  exists cw. split; [exact Hcw|].
  apply Hc. intros n Hn. simpl in Hn.
  repeat (destruct Hn as [<-|Hn]; [reflexivity|]). destruct Hn.
Defined.

(** ** [get_city_state_from_coords] *)

Lemma or_chain (addr : list (string * Reverse.json)) :
  (c <- Reverse.get (Reverse.JObj addr) "city" Reverse.JNull ;;
   Reverse.or_else c
     (t <- Reverse.get (Reverse.JObj addr) "town" Reverse.JNull ;;
      Reverse.or_else t
        (v <- Reverse.get (Reverse.JObj addr) "village" Reverse.JNull ;;
         Reverse.or_else v
           (h <- Reverse.get (Reverse.JObj addr) "hamlet" Reverse.JNull ;;
            Reverse.or_else h (Ok (Reverse.JStr ""))))))
  = Ok (Reverse.first_truthy addr ["city"; "town"; "village"; "hamlet"]).
Proof.
  unfold Reverse.first_truthy, Reverse.or_else, Reverse.get.
  cbn [bind map find].
  repeat match goal with
         | |- context [if Reverse.truthy ?x then _ else _] =>
             destruct (Reverse.truthy x)
         end; reflexivity.
Qed.

Lemma or_state (addr : list (string * Reverse.json)) :
  (s <- Reverse.get (Reverse.JObj addr) "state" Reverse.JNull ;;
   Reverse.or_else s (Ok (Reverse.JStr "")))
  = Ok (Reverse.first_truthy addr ["state"]).
Proof.
  unfold Reverse.first_truthy, Reverse.or_else, Reverse.get.
  cbn [bind map find].
  now destruct (Reverse.truthy _).
Qed.

(** The city is the first non-empty value among "city", "town",
    "village" and "hamlet" of the address, the state its "state"; each is
    the empty string when nothing is found, and an answer with no
    "address" at all (an error object of the service, say) gives two
    empty strings instead of an error. *)
Theorem city_falls_back_to_smaller_places (requests_get : Reverse.client)
    (lat lon : string) (resp : Reverse.response)
    (data : list (string * Reverse.json)) :
  requests_get (Reverse.reverse_url lat lon) = Ok resp ->
  Reverse.json_body resp = Ok (Reverse.JObj data) ->
  (forall addr,
     Reverse.lookup "address" data = Some (Reverse.JObj addr) ->
     Reverse.get_city_state_from_coords requests_get lat lon
     = Ok (Reverse.first_truthy addr ["city"; "town"; "village"; "hamlet"],
           Reverse.first_truthy addr ["state"])) /\
  (Reverse.lookup "address" data = None ->
   Reverse.get_city_state_from_coords requests_get lat lon
   = Ok (Reverse.JStr "", Reverse.JStr "")).
Proof.
  intros Hget Hbody. unfold Reverse.get_city_state_from_coords.
  rewrite Hget. cbn [bind]. rewrite Hbody. cbn [bind Reverse.get].
  split.
  - intros addr Ha. rewrite Ha. cbn [bind].
    rewrite or_chain. cbn [bind]. rewrite or_state. reflexivity.
  - intros Ha. rewrite Ha. cbn [bind].
    rewrite or_chain. cbn [bind]. rewrite or_state. reflexivity.
Qed.

Lemma city_falls_back_to_smaller_places_witness :
  Reverse.get_city_state_from_coords
    (fun _ => Ok (Reverse.Response 200
       (Ok (Reverse.JObj
          [("address",
            Reverse.JObj [("city", Reverse.JStr "");
                          ("village", Reverse.JStr "Alta");
                          ("hamlet", Reverse.JStr "Albion Basin");
                          ("state", Reverse.JStr "Utah")])]))))
    "40.59" "-111.64"
  = Ok (Reverse.JStr "Alta", Reverse.JStr "Utah") /\
  Reverse.get_city_state_from_coords
    (fun _ => Ok (Reverse.Response 200
       (Ok (Reverse.JObj [("error", Reverse.JStr "Unable to geocode")]))))
    "0" "0"
  = Ok (Reverse.JStr "", Reverse.JStr "").
Proof.
  split.
  - apply (proj1 (city_falls_back_to_smaller_places
             (fun _ => Ok (Reverse.Response 200
                (Ok (Reverse.JObj
                   [("address",
                     Reverse.JObj [("city", Reverse.JStr "");
                                   ("village", Reverse.JStr "Alta");
                                   ("hamlet", Reverse.JStr "Albion Basin");
                                   ("state", Reverse.JStr "Utah")])]))))
             "40.59" "-111.64" _ _ eq_refl eq_refl)
             [("city", Reverse.JStr "");
              ("village", Reverse.JStr "Alta");
              ("hamlet", Reverse.JStr "Albion Basin");
              ("state", Reverse.JStr "Utah")]).
    reflexivity.
  - apply (proj2 (city_falls_back_to_smaller_places
             (fun _ => Ok (Reverse.Response 200
                (Ok (Reverse.JObj
                   [("error", Reverse.JStr "Unable to geocode")]))))
             "0" "0" _ _ eq_refl eq_refl)).
    reflexivity.
Defined.

(** Nothing is caught and the status is never read: a failed transport
    or an undecodable body raises as it is, a body that is not an object
    (or whose "address" is not one) raises [AttributeError], and the
    answer to a 500 is read like the answer to a 200. *)
Theorem reverse_lookup_errors_escape (requests_get : Reverse.client)
    (lat lon : string) :
  (forall e,
     requests_get (Reverse.reverse_url lat lon) = Raise e ->
     Reverse.get_city_state_from_coords requests_get lat lon = Raise e) /\
  (forall status e,
     requests_get (Reverse.reverse_url lat lon)
     = Ok (Reverse.Response status (Raise e)) ->
     Reverse.get_city_state_from_coords requests_get lat lon = Raise e) /\
  (forall status data,
     requests_get (Reverse.reverse_url lat lon)
     = Ok (Reverse.Response status (Ok data)) ->
     (forall items, data <> Reverse.JObj items) ->
     Reverse.get_city_state_from_coords requests_get lat lon
     = Raise (AttributeError
         ("'" ++ Reverse.type_name data
              ++ "' object has no attribute 'get'")%string)) /\
  (forall status data address,
     requests_get (Reverse.reverse_url lat lon)
     = Ok (Reverse.Response status (Ok (Reverse.JObj data))) ->
     Reverse.lookup "address" data = Some address ->
     (forall items, address <> Reverse.JObj items) ->
     Reverse.get_city_state_from_coords requests_get lat lon
     = Raise (AttributeError
         ("'" ++ Reverse.type_name address
              ++ "' object has no attribute 'get'")%string)) /\
  (forall status body,
     Reverse.get_city_state_from_coords
       (fun _ => Ok (Reverse.Response status body)) lat lon
     = Reverse.get_city_state_from_coords
         (fun _ => Ok (Reverse.Response 200 body)) lat lon).
Proof.
  unfold Reverse.get_city_state_from_coords.
  split; [|split; [|split; [|split]]].
  - now intros e ->.
  - now intros status e ->.
  - intros status data -> Hno. cbn [bind Reverse.json_body].
    destruct data; try reflexivity.
    exfalso. now apply (Hno items).
  - intros status data address -> Ha Hno.
    cbn [bind Reverse.json_body Reverse.get]. rewrite Ha.
    destruct address; try reflexivity.
    exfalso. now apply (Hno items).
  - reflexivity.
Qed.

Lemma reverse_lookup_errors_escape_witness :
  Reverse.get_city_state_from_coords
    (fun _ => Ok (Reverse.Response 200 (Ok (Reverse.JArr []))))
    "40.59" "-111.64"
  = Raise (AttributeError "'list' object has no attribute 'get'").
Proof.
  apply (proj1 (proj2 (proj2 (reverse_lookup_errors_escape
           (fun _ => Ok (Reverse.Response 200 (Ok (Reverse.JArr []))))
           "40.59" "-111.64")))
           200%Z (Reverse.JArr []) eq_refl).
  discriminate.
Defined.

(** ** More on the display list and on the current conditions *)

Lemma format_loop_pairs (b : Format.datetime_binding)
    (combined : list (string * string)) :
  forall formatted out,
    Format.format_loop_with b combined formatted = Ok out ->
    exists added,
      out = formatted ++ added /\
      Forall2 (fun p s => Format.format_pair_with b p = Ok s) combined added.
Proof.
  induction combined as [|p rest IH]; intros formatted out H.
  - simpl in H. injection H as <-. exists []. split.
    + now rewrite app_nil_r.
    + constructor.
  - rewrite format_loop_cons in H.
    destruct (Format.format_pair_with b p) as [s|e] eqn:Ep;
      [|discriminate].
    cbn [bind] in H. destruct (IH _ _ H) as (added & -> & Hall).
    exists (s :: added). split.
    + now rewrite <- app_assoc.
    + now constructor.
Qed.

(** The display list follows the pair list position by position: entry
    [i] is the string of pair [i], which is what lets the value lists be
    zipped against it. *)
Theorem display_follows_pairs (combined : list (string * string))
    (formatted : list string) :
  Format.format_all combined = Ok formatted ->
  Forall2 (fun p s => Format.format_pair p = Ok s) combined formatted /\
  length formatted = length combined /\
  forall i date hour,
    nth_error combined i = Some (date, hour) ->
    exists n,
      Text.int hour = Ok n /\
      nth_error formatted i
      = Some (date ++ ", " ++ (Text.format_02d n ++ ":00"))%string.
Proof.
  intros H. unfold Format.format_all in H.
  destruct (format_loop_pairs _ _ _ _ H) as (added & -> & Hall).
  simpl app. fold Format.format_pair in Hall.
  split; [exact Hall|]. split.
  - symmetry. eapply Forall2_length. exact Hall.
  - clear H. induction Hall as [|p s ps ss Hp _ IH]; intros i date hour Hi.
    + destruct i; discriminate.
    + destruct i as [|i].
      * simpl in Hi. injection Hi as ->. simpl.
        destruct (int_cases hour) as [(n & Hn)|(msg & Hn)].
        -- exists n. split; [exact Hn|].
           destruct (format_pair_with_ok Format.datetime date hour n Hn)
             as (ds & Hds & Hfp).
           rewrite date_str_of_module in Hds. injection Hds as <-.
           unfold Format.format_pair in Hp. rewrite Hfp in Hp.
           now injection Hp as <-.
        -- unfold Format.format_pair in Hp.
           rewrite (format_pair_with_raise _ date hour _ Hn) in Hp.
           discriminate.
      * simpl in Hi. simpl. now apply IH.
Qed.

Lemma display_follows_pairs_witness :
  Forall2 (fun p s => Format.format_pair p = Ok s)
    [("5/10", "22"); ("5/11", "0")] ["5/10, 22:00"; "5/11, 00:00"].
Proof.
  apply (display_follows_pairs [("5/10", "22"); ("5/11", "0")]
           ["5/10, 22:00"; "5/11, 00:00"]).
  reflexivity.
Defined.

Lemma detail_row_sets_wind (st : string * string) (row c0 c1 : Soup.node) :
  Soup.tag_find_all "td" row = [c0; c1] ->
  Text.contains "Wind" (Soup.get_text_strip c0) = true ->
  snd (Scraper.detail_row st row) = Soup.get_text_strip c1.
Proof.
  intros Hc Hw. unfold Scraper.detail_row. destruct st as [h w].
  rewrite Hc, Hw. reflexivity.
Qed.

Lemma detail_row_sets_humidity (st : string * string)
    (row c0 c1 : Soup.node) :
  Soup.tag_find_all "td" row = [c0; c1] ->
  Text.contains "Humidity" (Soup.get_text_strip c0) = true ->
  fst (Scraper.detail_row st row) = Soup.get_text_strip c1.
Proof.
  intros Hc Hw. unfold Scraper.detail_row. destruct st as [h w].
  rewrite Hc, Hw. simpl.
  now destruct (Text.contains "Wind" (Soup.get_text_strip c0)).
Qed.

(** The last matching row wins: wind speed (humidity) is the second
    cell of the last two-cell row of the details region whose label
    contains "Wind" ("Humidity"), anywhere in the label; so a "Wind
    Chill" row after "Wind Speed" replaces the wind speed. *)
Theorem last_matching_detail_row_wins (requests_get : Http.client)
    (url : string) (resp : Http.response) :
  requests_get url = Ok resp ->
  let rows :=
    Soup.select "current_conditions_detail" "tr" (Http.content resp) in
  exists cw,
    Scraper.get_weather_data_html_weather_gov requests_get url = Ok cw /\
    (forall before row after c0 c1,
       rows = before ++ row :: after ->
       Soup.tag_find_all "td" row = [c0; c1] ->
       Text.contains "Wind" (Soup.get_text_strip c0) = true ->
       (forall r, In r after -> row_names "Wind" r = false) ->
       Scraper.wind_speed cw = Soup.get_text_strip c1) /\
    (forall before row after c0 c1,
       rows = before ++ row :: after ->
       Soup.tag_find_all "td" row = [c0; c1] ->
       Text.contains "Humidity" (Soup.get_text_strip c0) = true ->
       (forall r, In r after -> row_names "Humidity" r = false) ->
       Scraper.humidity cw = Soup.get_text_strip c1).
Proof.
  intros H rows.
  eexists. split; [apply (current_weather_of_response _ _ _ H)|].
  fold rows. cbn [Scraper.wind_speed Scraper.humidity].
  split.
  - intros before row after c0 c1 -> Hc Hw Hafter.
    rewrite fold_left_app. simpl fold_left.
    rewrite (detail_rows_wind after _ Hafter).
    now apply detail_row_sets_wind with (c0 := c0).
  - intros before row after c0 c1 -> Hc Hw Hafter.
    rewrite fold_left_app. simpl fold_left.
    rewrite (detail_rows_humidity after _ Hafter).
    now apply detail_row_sets_humidity with (c0 := c0).
Qed.

Lemma last_matching_detail_row_wins_witness :
  exists cw,
    Scraper.get_weather_data_html_weather_gov
      (serve (Http.Response 200 winter_page (Raise (ValueError "not JSON"))))
      "https://forecast.weather.gov/MapClick.php?lat=40.76&lon=-111.89"
    = Ok cw /\
    Scraper.wind_speed cw = "25F (-4C)".
Proof.
  destruct (last_matching_detail_row_wins
              (serve (Http.Response 200 winter_page
                        (Raise (ValueError "not JSON"))))
              "https://forecast.weather.gov/MapClick.php?lat=40.76&lon=-111.89"
              _ eq_refl)
    as (cw & Hcw & Hwind & _).
  exists cw. split; [exact Hcw|].
  apply (Hwind [detail_line "Humidity" "72%";
                detail_line "Wind Speed" "N 8 mph";
                detail_line "Barometer" "30.12 in"]
               (detail_line "Wind Chill" "25F (-4C)") []
               (Soup.Tag "td" None []
                  [Soup.Tag "b" None [] [Soup.NavigableString "Wind Chill"]])
               (Soup.Tag "td" None [] [Soup.NavigableString "25F (-4C)"]));
    try reflexivity.
  intros r [].
Defined.

(** ** Text beyond ASCII *)

(** [strip] removes the no-break space, which [int] also skips; [int]
    reads the digits of every script; the separators U+001C to U+001F are
    white space for [strip] and not for [int]. *)
Lemma text_beyond_ascii :
  Text.strip (no_break_space ++ "59" ++ no_break_space) = "59" /\
  Text.int (no_break_space ++ "59") = Ok 59%Z /\
  Text.int fullwidth_seven = Ok 7%Z /\
  Format.format_all [("5/10", fullwidth_seven)] = Ok ["5/10, 07:00"] /\
  Text.strip (String (ascii_of_nat 28) "5") = "5" /\
  raises (Text.int (String (ascii_of_nat 28) "5")) = true.
Proof. repeat split; reflexivity. Qed.

(** Cells padded with [&nbsp;] are read without the padding, and a cell
    that holds nothing else is a blank cell. *)
Lemma padded_cells :
  Scraper.get_weather_data_html_weather_gov
    (serve (Http.Response 200 padded_page (Raise (ValueError "not JSON"))))
    "https://forecast.weather.gov/MapClick.php?lat=40.76&lon=-111.89"
  = Ok (Scraper.CurrentWeather "59" "N/A" "N 8 mph" "N/A") /\
  Walk.all_dates (Walk.walk [sparse_date_row]) = ["5/10"; "5/11"].
Proof. split; reflexivity. Qed.
